(** * Handwriting similarity: feature shaping, scoring, anomalies, variations

    A shallow embedding of [app/similarity/handwriting_similarity.py].

    Numbers.  The Python code computes with binary floating point.  The
    development reads the program twice.

    The first reading takes every number as an exact one: values that the
    program obtains by [+], [-], [*], [/], [abs], [min] and [max] alone are
    rationals ([Q]); [np.std] takes a square root, so the standard deviation
    and the quantities derived from it are real numbers ([R]).  It serves
    the properties that do not depend on how a result is rounded: the shape
    of the records, the guards, the order of the results, the keys of the
    mappings.

    The second reading, the module [Doubles], computes with binary64
    numbers, as the program does: sums are rounded at every step, a square
    can underflow to [0.0], a sum can overflow to [inf], [inf - inf] is
    [nan], and numpy's division by [0.0] gives [inf].  The properties that
    rounding decides are stated on it.

    Errors.  Python's [/] on [int] and [float] raises [ZeroDivisionError];
    the embedding of [process_image] returns a sum type and reproduces the
    [try ... except Exception] of the source.  In the exact reading numpy's
    scalar division is modelled as checked too, which is stricter than numpy
    (a warning and [inf]); in [Doubles] it is numpy's. *)

From Stdlib Require Import Floats.
From Stdlib Require Import Ascii String DecimalString.
From Stdlib Require Import List Permutation Sorted Bool Arith ZArith Lia.
From Stdlib Require Import QArith Qabs Qminmax Qround Qreals.
From Stdlib Require Import Reals Lra Psatz.
Import ListNotations.

#[local] Set Warnings "-inexact-float".
Local Open Scope Q_scope.

(** ** Python and numpy primitives, on exact numbers *)

Module Py.

(** [not xs] for a list. *)
Definition is_empty {A : Type} (xs : list A) : bool :=
  match xs with
  | [] => true
  | _ :: _ => false
  end.

(** [sum(xs)] over numbers, starting from [0] as the builtin does. *)
Definition sum (xs : list Q) : Q := fold_left Qplus xs 0.

(** [len(xs)] as a number. *)
Definition len {A : Type} (xs : list A) : Q := inject_Z (Z.of_nat (List.length xs)).

(** [np.mean(xs)]: the sum over the number of elements, not rounded. *)
Definition np_mean (xs : list Q) : Q := sum xs / len xs.

(** [np.clip(x, lo, hi)], that is [minimum(maximum(x, lo), hi)], on numbers
    (a rational is never [nan]). *)
Definition np_clip (x lo hi : Q) : Q := Qmin (Qmax x lo) hi.

(** [np.std(xs)]: the population standard deviation,
    [sqrt(mean(abs(x - mean(xs)) ** 2))]. *)
Definition np_var (xs : list Q) : Q :=
  np_mean (map (fun x => Qabs (x - np_mean xs) * Qabs (x - np_mean xs)) xs).

Definition np_std (xs : list Q) : R := sqrt (Q2R (np_var xs)).

(** [d.get(key, default)], with [None] for a missing key. *)
Definition get {A : Type} (field : option A) (default : A) : A :=
  match field with
  | Some v => v
  | None => default
  end.

(** [enumerate(xs)]. *)
Definition enumerate {A : Type} (xs : list A) : list (nat * A) :=
  combine (seq 0 (List.length xs)) xs.

(** The exceptions the modelled code can raise. *)
Inductive exn : Type :=
| ZeroDivisionError.

(** A computation that returns a value or raises. *)
Definition raises (A : Type) : Type := (exn + A)%type.

Definition ret {A : Type} (a : A) : raises A := inr a.

Definition bind {A B : Type} (m : raises A) (k : A -> raises B) : raises B :=
  match m with
  | inl e => inl e
  | inr a => k a
  end.

(** [a / b] on Python numbers. *)
Definition div (a b : Q) : raises Q :=
  if Qeq_bool b 0 then inl ZeroDivisionError else inr (a / b).

(** [a / b] on numpy scalars, with a zero divisor reported as an error: a
    real number cannot stand for the [inf] that numpy returns. *)
Definition np_div (a b : R) : raises R :=
  if Req_dec_T b 0 then inl ZeroDivisionError else inr (a / b)%R.

(** Every computation of a list in order; the first exception wins. *)
Fixpoint sequence {A : Type} (ms : list (raises A)) : raises (list A) :=
  match ms with
  | [] => ret []
  | m :: ms' => bind m (fun a => bind (sequence ms') (fun l => ret (a :: l)))
  end.

End Py.

Notation "x <- m ;; k" := (Py.bind m (fun x => k))
  (at level 61, m at next level, right associativity).

(** ** Data model *)

(** One dict appended to [page_features] by [process_image]. *)
Record ParagraphFeature : Type := mkParagraphFeature {
  confidence : Q;
  word_count : nat;
  symbol_density : Q;
  line_breaks : Z;
  average_symbol_confidence : Q
}.

Definition PageFeatureSet : Type := list ParagraphFeature.
Definition DocumentFeatureSet : Type := list PageFeatureSet.

(** The three dimensions that the anomaly detector and the page-variation
    analyzer look at, with the dict key of each. *)
Inductive Dim : Type :=
| Confidence
| SymbolDensity
| LineBreaks.

Definition dim_key (d : Dim) : string :=
  match d with
  | Confidence => "confidence"
  | SymbolDensity => "symbol_density"
  | LineBreaks => "line_breaks"
  end.

(** ** Similarity scorer *)

Module Scorer.

(** The [weights] dict. *)
Definition w_confidence : Q := 3 # 10.
Definition w_symbol_density : Q := 3 # 10.
Definition w_line_breaks : Q := 2 # 10.
Definition w_avg_confidence : Q := 2 # 10.

(** [1 - abs(np.mean([f[k] for f in flat1]) - np.mean([f[k] for f in flat2]))]
    for the field read by [k]. *)
Definition dim_sim (k : ParagraphFeature -> Q)
    (flat1 flat2 : list ParagraphFeature) : Q :=
  1 - Qabs (Py.np_mean (map k flat1) - Py.np_mean (map k flat2)).

Definition line_breaks_q (f : ParagraphFeature) : Q := inject_Z (line_breaks f).

(** The result of the scorer: the similarity and the [feature_scores] dict,
    kept as an association list in insertion order. *)
Definition ScoreResult : Type := (Q * list (string * Q))%type.

(** [compare_handwriting_features].  [features1[0]] is only evaluated when
    [features1] is not empty, by the short circuit of [or], so the default of
    [hd] is never observed. *)
Definition compare_handwriting_features
    (features1 features2 : DocumentFeatureSet) : ScoreResult :=
  if Py.is_empty features1 || Py.is_empty features2
     || Py.is_empty (hd [] features1) || Py.is_empty (hd [] features2)
  then (0, [])
  else
    let flat_features1 := concat features1 in
    let flat_features2 := concat features2 in
    if Py.is_empty flat_features1 || Py.is_empty flat_features2
    then (0, [])
    else
      let conf_sim := dim_sim confidence flat_features1 flat_features2 in
      let symbol_density_sim :=
        dim_sim symbol_density flat_features1 flat_features2 in
      let line_break_sim := dim_sim line_breaks_q flat_features1 flat_features2 in
      let avg_conf_sim :=
        dim_sim average_symbol_confidence flat_features1 flat_features2 in
      let feature_scores :=
        [ ("confidence_similarity"%string, Py.np_clip conf_sim 0 1);
          ("symbol_density_similarity"%string, Py.np_clip symbol_density_sim 0 1);
          ("line_break_similarity"%string, Py.np_clip line_break_sim 0 1);
          ("average_confidence_similarity"%string, Py.np_clip avg_conf_sim 0 1) ] in
      let similarity :=
        w_confidence * conf_sim
        + w_symbol_density * symbol_density_sim
        + w_line_breaks * line_break_sim
        + w_avg_confidence * avg_conf_sim in
      (Py.np_clip similarity 0 1, feature_scores).

(** The composite score as the specification words it: the weighted sum of
    the per-dimension similarities after each has been clamped, clamped. *)
Definition spec_composite (features1 features2 : DocumentFeatureSet) : Q :=
  let clamped k :=
    Py.np_clip (dim_sim k (concat features1) (concat features2)) 0 1 in
  Py.np_clip
    (w_confidence * clamped confidence
     + w_symbol_density * clamped symbol_density
     + w_line_breaks * clamped line_breaks_q
     + w_avg_confidence * clamped average_symbol_confidence)
    0 1.

(** The degenerate inputs, as the specification lists them. *)
Definition degenerate (features1 features2 : DocumentFeatureSet) : Prop :=
  features1 = [] \/ features2 = []
  \/ hd [] features1 = [] \/ hd [] features2 = []
  \/ concat features1 = [] \/ concat features2 = [].

End Scorer.

(** ** Feature extraction *)

(** The part of the recognition service's JSON answer that [process_image]
    reads.  A field that [process_image] reads with [.get] or tests with [in]
    is optional. *)
Module Vision.

(** A string as the sequence of its code points. *)
Definition text : Type := list N.

Definition text_of_string (s : string) : text :=
  map N_of_ascii (list_ascii_of_string s).

Record Symbol : Type := mkSymbol {
  sym_text : option text;
  sym_confidence : option Q;
  (** [symbol["property"]["detectedBreak"]["type"]], [None] when one of the
      three keys is missing. *)
  sym_break_type : option text
}.

Record Word : Type := mkWord { symbols : option (list Symbol) }.

Record Paragraph : Type := mkParagraph {
  par_confidence : option Q;
  words : option (list Word)
}.

Record Block : Type := mkBlock { paragraphs : option (list Paragraph) }.

Record Page : Type := mkPage { blocks : option (list Block) }.

Record TextAnnotation : Type := mkTextAnnotation { pages : option (list Page) }.

Record AnnotateResponse : Type := mkAnnotateResponse {
  fullTextAnnotation : option TextAnnotation
}.

Record Result : Type := mkResult { responses : option (list AnnotateResponse) }.

(** What [requests.post] and [response.json()] give: an exception, or a
    status code with the decoded body ([None] when decoding raises). *)
Inductive PostOutcome : Type :=
| RequestFailed
| Response (status_code : Z) (json : option Result).

End Vision.

Module Extractor.
Import Vision.

Section WithService.

(** The character database behind [str.isalnum] for code points outside
    ASCII, and the remote call for an image and an API key. *)
Variable unicode_isalnum : N -> bool.
Variable Image : Type.
Variable vision_post : Image -> string -> PostOutcome.

(** [c.isalnum()] for one code point: ASCII digits and letters, and what the
    character database says beyond ASCII. *)
Definition char_isalnum (c : N) : bool :=
  if (c <? 128)%N
  then ((48 <=? c) && (c <=? 57) || (65 <=? c) && (c <=? 90)
        || (97 <=? c) && (c <=? 122))%N
  else unicode_isalnum c.

(** [s.isalnum()]: at least one character, and every character alphanumeric. *)
Definition isalnum (s : text) : bool :=
  negb (Py.is_empty s) && forallb char_isalnum s.

(** [for word in words for symbol in word.get("symbols", [])]. *)
Definition symbols_of (ws : list Word) : list Symbol :=
  flat_map (fun word => Py.get (symbols word) []) ws.

(** The truth value of
    [symbol.get("property", {}).get("detectedBreak", {}).get("type")]. *)
Definition has_break (symbol : Symbol) : bool :=
  match sym_break_type symbol with
  | Some t => negb (Py.is_empty t)
  | None => false
  end.

(** [sum(1 for ... if cond)]. *)
Definition count_if (cond : Symbol -> bool) (ss : list Symbol) : Z :=
  fold_left Z.add (map (fun _ => 1%Z) (filter cond ss)) 0%Z.

(** A symbol whose text is not alphanumeric. *)
Definition non_alnum (symbol : Symbol) : bool :=
  negb (isalnum (Py.get (sym_text symbol) [])).

(** The symbol density as the specification words it: the non-alphanumeric
    symbols of the paragraph over all its symbols. *)
Definition spec_symbol_density (ws : list Word) : Q :=
  inject_Z (Z.of_nat (List.length (filter non_alnum (symbols_of ws))))
  / inject_Z (Z.of_nat (List.length (symbols_of ws))).

(** The body of the innermost loop for one paragraph: [None] when
    [words] is empty, the dict otherwise.  The values of the dict are
    evaluated in the order of the source. *)
Definition paragraph_feature (paragraph : Paragraph)
    : Py.raises (option ParagraphFeature) :=
  let ws := Py.get (words paragraph) [] in
  if Py.is_empty ws then Py.ret None
  else
    let confidence_v := Py.get (par_confidence paragraph) 0 in
    let word_count_v := List.length ws in
    symbol_density_v <-
      (if negb (Py.is_empty ws)
       then Py.div
              (inject_Z
                 (count_if
                    (fun symbol => negb (isalnum (Py.get (sym_text symbol) [])))
                    (symbols_of ws)))
              (Py.len ws)
       else Py.ret 0) ;;
    let line_breaks_v := count_if has_break (symbols_of ws) in
    average_symbol_confidence_v <-
      Py.div
        (Py.sum (map (fun symbol => Py.get (sym_confidence symbol) 0)
                   (symbols_of ws)))
        (inject_Z (count_if (fun _ => true) (symbols_of ws))) ;;
    Py.ret (Some {| confidence := confidence_v;
                    word_count := word_count_v;
                    symbol_density := symbol_density_v;
                    line_breaks := line_breaks_v;
                    average_symbol_confidence := average_symbol_confidence_v |}).

(** The paragraphs of an annotation in the order of the three nested loops. *)
Definition paragraphs_of (text_data : TextAnnotation) : list Paragraph :=
  flat_map
    (fun page =>
       flat_map (fun block => Py.get (paragraphs block) [])
         (Py.get (blocks page) []))
    (Py.get (pages text_data) []).

(** The three loops: every dict appended to [page_features], or the first
    exception. *)
Definition collect_features (text_data : TextAnnotation)
    : Py.raises (list ParagraphFeature) :=
  fs <- Py.sequence (map paragraph_feature (paragraphs_of text_data)) ;;
  Py.ret (flat_map (fun o => match o with Some f => [f] | None => [] end) fs).

(** What [process_image] does with the outcome of the remote call.  Every
    exception inside the [try] ends in [return []]. *)
Definition shape_response (outcome : PostOutcome) : PageFeatureSet :=
  match outcome with
  | RequestFailed => []
  | Response status_code json =>
      if negb (status_code =? 200)%Z then []
      else
        match json with
        | None => []
        | Some result =>
            match responses result with
            | Some (response_data :: _) =>
                match fullTextAnnotation response_data with
                | Some text_data =>
                    match collect_features text_data with
                    | inl _ => []
                    | inr page_features => page_features
                    end
                | None => []
                end
            | _ => []
            end
        end
  end.

(** [process_image(args)]. *)
Definition process_image (args : Image * string * nat) : PageFeatureSet :=
  let '(image, api_key, page_num) := args in
  shape_response (vision_post image api_key).

(** [as_completed(futures)] yields every future once, in an order that is
    only known at run time: the futures that have already finished come
    first, in no particular order, the others follow as they finish.  The
    order of the yields is the list [completion] of indices into
    [futures]. *)
Definition as_completed {A : Type} (futures : list A) (completion : list nat)
    : list A :=
  flat_map
    (fun i => match nth_error futures i with
              | Some future => [future]
              | None => []
              end)
    completion.

(** The order of the yields names every submitted task once. *)
Definition completion_order (n : nat) (completion : list nat) : Prop :=
  Permutation completion (seq 0 n).

(** [extract_handwriting_features(images, api_key)]; a future is identified
    with its result. *)
Definition extract_handwriting_features (images : list Image) (api_key : string)
    (completion : list nat) : DocumentFeatureSet :=
  let futures :=
    map (fun '(i, image) => process_image (image, api_key, i))
      (Py.enumerate images) in
  as_completed futures completion.

End WithService.

End Extractor.

(** ** Anomaly detector *)

Module Anomaly.

(** [feature[key]] as a number. *)
Definition field (d : Dim) (feature : ParagraphFeature) : Q :=
  match d with
  | Confidence => confidence feature
  | SymbolDensity => symbol_density feature
  | LineBreaks => inject_Z (line_breaks feature)
  end.

(** The dict stored under a flagged dimension. *)
Record DimEntry : Type := mkDimEntry {
  value : Q;
  mean : Q;
  deviation : R
}.

(** The [anomaly] dict of one paragraph, once it is appended. *)
Record AnomalyRecord : Type := mkAnomalyRecord {
  an_confidence : option DimEntry;
  an_symbol_density : option DimEntry;
  an_line_breaks : option DimEntry;
  paragraph_index : nat;
  page_number : nat
}.

(** [anomaly.get(key)]. *)
Definition cited (d : Dim) (r : AnomalyRecord) : option DimEntry :=
  match d with
  | Confidence => an_confidence r
  | SymbolDensity => an_symbol_density r
  | LineBreaks => an_line_breaks r
  end.

Definition threshold : R := 2%R.

(** One of the three [if] statements of the loop body: the entry for a
    dimension when [abs(v - m) > threshold * sd], nothing otherwise. *)
Definition check_dim (v m : Q) (sd : R) : Py.raises (option DimEntry) :=
  if Rgt_dec (Q2R (Qabs (v - m))) (threshold * sd)
  then
    dev <- Py.np_div (Q2R (Qabs (v - m))) sd ;;
    Py.ret (Some {| value := v; mean := m; deviation := dev |})
  else Py.ret None.

(** [if anomaly:] for the dict with the three optional keys. *)
Definition nonempty_anomaly (c s l : option DimEntry) : bool :=
  match c, s, l with
  | None, None, None => false
  | _, _, _ => true
  end.

(** The body of [for i, feature in enumerate(features)]: the anomalies it
    appends (none or one). *)
Definition check_paragraph (page_num : nat)
    (confidence_mean : Q) (confidence_std : R)
    (symbol_density_mean : Q) (symbol_density_std : R)
    (line_breaks_mean : Q) (line_breaks_std : R)
    (i : nat) (feature : ParagraphFeature) : Py.raises (list AnomalyRecord) :=
  c <- check_dim (field Confidence feature) confidence_mean confidence_std ;;
  s <- check_dim (field SymbolDensity feature) symbol_density_mean
         symbol_density_std ;;
  l <- check_dim (field LineBreaks feature) line_breaks_mean line_breaks_std ;;
  if nonempty_anomaly c s l
  then Py.ret [ {| an_confidence := c;
                   an_symbol_density := s;
                   an_line_breaks := l;
                   paragraph_index := i;
                   page_number := page_num + 1 |} ]
  else Py.ret [].

(** [detect_page_anomalies(features, page_num)]. *)
Definition detect_page_anomalies (features : PageFeatureSet) (page_num : nat)
    : Py.raises (list AnomalyRecord) :=
  let confidence_mean := Py.np_mean (map (field Confidence) features) in
  let confidence_std := Py.np_std (map (field Confidence) features) in
  let symbol_density_mean := Py.np_mean (map (field SymbolDensity) features) in
  let symbol_density_std := Py.np_std (map (field SymbolDensity) features) in
  let line_breaks_mean := Py.np_mean (map (field LineBreaks) features) in
  let line_breaks_std := Py.np_std (map (field LineBreaks) features) in
  per_paragraph <-
    Py.sequence
      (map (fun '(i, feature) =>
              check_paragraph page_num
                confidence_mean confidence_std
                symbol_density_mean symbol_density_std
                line_breaks_mean line_breaks_std i feature)
         (Py.enumerate features)) ;;
  Py.ret (concat per_paragraph).

(** Every entry of a record. *)
Definition entries (r : AnomalyRecord) : list DimEntry :=
  flat_map (fun d => match cited d r with Some e => [e] | None => [] end)
    [Confidence; SymbolDensity; LineBreaks].

End Anomaly.

(** ** Page-variation analyzer *)

Module Variation.

(** The [page_characteristics] dict of one non-empty page. *)
Record PageCharacteristics : Type := mkPageCharacteristics {
  pc_page_number : nat;
  pc_confidence : Q;
  pc_symbol_density : Q;
  pc_line_breaks : Q
}.

(** One element of [variation["changes"]]. *)
Record Change : Type := mkChange {
  type : string;
  difference : Q;
  description : string
}.

Record VariationRecord : Type := mkVariationRecord {
  from_page : nat;
  to_page : nat;
  changes : list Change
}.

Definition threshold : Q := 15 # 100.

(** [page[key]] for the key of a dimension. *)
Definition pc_field (d : Dim) (page : PageCharacteristics) : Q :=
  match d with
  | Confidence => pc_confidence page
  | SymbolDensity => pc_symbol_density page
  | LineBreaks => pc_line_breaks page
  end.

(** The title of a dimension, as descriptions show it. *)
Definition dim_title (d : Dim) : string :=
  match d with
  | Confidence => "Confidence"
  | SymbolDensity => "Symbol Density"
  | LineBreaks => "Line Breaks"
  end.

(** *** The string operations of the description *)

Definition is_lower (c : ascii) : bool :=
  (97 <=? nat_of_ascii c)%nat && (nat_of_ascii c <=? 122)%nat.

Definition is_upper (c : ascii) : bool :=
  (65 <=? nat_of_ascii c)%nat && (nat_of_ascii c <=? 90)%nat.

Definition to_upper (c : ascii) : ascii :=
  if is_lower c then ascii_of_nat (nat_of_ascii c - 32) else c.

Definition to_lower (c : ascii) : ascii :=
  if is_upper c then ascii_of_nat (nat_of_ascii c + 32) else c.

(** [s.replace(old, new)] for single characters. *)
Fixpoint replace (old new : ascii) (s : string) : string :=
  match s with
  | EmptyString => EmptyString
  | String c s' =>
      String (if Ascii.eqb c old then new else c) (replace old new s')
  end.

(** [s.title()] on ASCII: a cased character becomes upper case after an
    uncased one (or at the start) and lower case after a cased one. *)
Fixpoint title_from (previous_is_cased : bool) (s : string) : string :=
  match s with
  | EmptyString => EmptyString
  | String c s' =>
      if is_lower c || is_upper c
      then String (if previous_is_cased then to_lower c else to_upper c)
             (title_from true s')
      else String c (title_from false s')
  end.

Definition title (s : string) : string := title_from false s.

(** Rounding to the nearest integer, ties to the even one. *)
Definition round_half_even (x : Q) : Z :=
  let f := Qfloor x in
  match Qcompare (x - inject_Z f) (1 # 2) with
  | Lt => f
  | Eq => if Z.even f then f else (f + 1)%Z
  | Gt => (f + 1)%Z
  end.

Definition decimal (n : Z) : string :=
  DecimalString.NilZero.string_of_uint (N.to_uint (Z.to_N n)).

(** [f"{x:.1f}"] for an exact number: the sign, the integer part, a point
    and one digit, of the multiple of one tenth nearest to [x]. *)
Definition format_1f (x : Q) : string :=
  let tenths := round_half_even (Qabs x * 10) in
  ((if Qlt_le_dec x 0 then "-" else "")
   ++ decimal (tenths / 10) ++ "." ++ decimal (tenths mod 10))%string.

(** The f-string of the description. *)
Definition describe (change_type : string) (v : Q) : string :=
  (title (replace "_" " " change_type)
   ++ " changed by " ++ format_1f (v * 100) ++ "%")%string.

(** *** The analyzer *)

(** The [changes] dict of a pair of pages, in insertion order. *)
Definition changes_dict (prev_page curr_page : PageCharacteristics)
    : list (string * Q) :=
  [ ("confidence"%string,
     Qabs (pc_confidence curr_page - pc_confidence prev_page));
    ("symbol_density"%string,
     Qabs (pc_symbol_density curr_page - pc_symbol_density prev_page));
    ("line_breaks"%string,
     Qabs (pc_line_breaks curr_page - pc_line_breaks prev_page)) ].

(** [value > threshold]. *)
Definition exceeds (v : Q) : bool :=
  if Qlt_le_dec threshold v then true else false.

(** The inner [for change_type, value in changes.items()] loop. *)
Definition changes_of (prev_page curr_page : PageCharacteristics) : list Change :=
  flat_map
    (fun '(change_type, v) =>
       if exceeds v
       then [ {| type := change_type;
                 difference := v;
                 description := describe change_type v |} ]
       else [])
    (changes_dict prev_page curr_page).

(** The body of [for i in range(1, len(page_characteristics))]: the
    variations it appends (none or one). *)
Definition step (prev_page curr_page : PageCharacteristics)
    : list VariationRecord :=
  let variation :=
    {| from_page := pc_page_number prev_page;
       to_page := pc_page_number curr_page;
       changes := changes_of prev_page curr_page |} in
  if Py.is_empty (changes variation) then [] else [variation].

(** [analyze_page_variations(page_characteristics)]. *)
Definition analyze_page_variations
    (page_characteristics : list PageCharacteristics) : list VariationRecord :=
  flat_map
    (fun i =>
       match nth_error page_characteristics (i - 1),
             nth_error page_characteristics i with
       | Some prev_page, Some curr_page => step prev_page curr_page
       | _, _ => []
       end)
    (seq 1 (List.length page_characteristics - 1)).

End Variation.

(** ** Internal anomalies of a document *)

Module Internal.
Import Anomaly Variation.

(** The loop body of [detect_internal_anomalies] for one page: nothing for
    an empty page, the page's anomalies and its characteristics otherwise. *)
Definition page_step (page_num : nat) (page_features : PageFeatureSet)
    : Py.raises (list AnomalyRecord * list PageCharacteristics) :=
  if Py.is_empty page_features then Py.ret ([], [])
  else
    let page_characteristics :=
      {| pc_page_number := page_num + 1;
         pc_confidence := Py.np_mean (map (field Confidence) page_features);
         pc_symbol_density :=
           Py.np_mean (map (field SymbolDensity) page_features);
         pc_line_breaks := Py.np_mean (map (field LineBreaks) page_features) |} in
    page_anomalies <- detect_page_anomalies page_features page_num ;;
    Py.ret (page_anomalies, [page_characteristics]).

(** [detect_internal_anomalies(features)]. *)
Definition detect_internal_anomalies (features : DocumentFeatureSet)
    : Py.raises (list AnomalyRecord * list VariationRecord) :=
  if Py.is_empty features then Py.ret ([], [])
  else
    per_page <-
      Py.sequence
        (map (fun '(page_num, page_features) => page_step page_num page_features)
           (Py.enumerate features)) ;;
    let anomalies := concat (map fst per_page) in
    let page_variations := concat (map snd per_page) in
    if (1 <? List.length page_variations)%nat
    then Py.ret (anomalies, analyze_page_variations page_variations)
    else Py.ret (anomalies, []).

End Internal.

(** ** Concrete inputs *)

Module Examples.
Import Vision.

Definition feature (c sd : Q) (lb : Z) (a : Q) : ParagraphFeature :=
  {| confidence := c;
     word_count := 1;
     symbol_density := sd;
     line_breaks := lb;
     average_symbol_confidence := a |}.

(** Two one-paragraph documents that differ by five line breaks. *)
Definition doc_few_breaks : DocumentFeatureSet := [[feature (1 # 2) 0 0 (1 # 2)]].
Definition doc_many_breaks : DocumentFeatureSet := [[feature (1 # 2) 0 5 (1 # 2)]].

(** A symbol with its text and confidence, without a detected break. *)
Definition sym (s : string) (c : Q) : Symbol :=
  mkSymbol (Some (text_of_string s)) (Some c) None.

(** The one-word paragraph [a,]: a letter and a comma. *)
Definition par_a_comma : Paragraph :=
  mkParagraph (Some (9 # 10)) (Some [mkWord (Some [sym "a" 1; sym "," 1])]).

(** A paragraph of one word that has no symbols. *)
Definition par_no_symbols : Paragraph :=
  mkParagraph (Some (9 # 10)) (Some [mkWord (Some [])]).

(** A successful answer of the service with one page, one block and the
    given paragraphs. *)
Definition answer (ps : list Paragraph) : PostOutcome :=
  Response 200
    (Some (mkResult
       (Some [mkAnnotateResponse
          (Some (mkTextAnnotation
             (Some [mkPage (Some [mkBlock (Some ps)])])))]))).

(** No character outside ASCII is alphanumeric; the examples are ASCII. *)
Definition ascii_only (c : N) : bool := false.

(** A service that answers with what the image holds. *)
Definition replay (image : PostOutcome) (api_key : string) : PostOutcome := image.

(** A written page and a blank page. *)
Definition written_page : PostOutcome := answer [par_a_comma].
Definition blank_page : PostOutcome := answer [].

(** A page of six paragraphs, five recognised with confidence [1] and one
    with confidence [0]. *)
Definition six_paragraphs : PageFeatureSet :=
  [ feature 1 0 0 1; feature 1 0 0 1; feature 1 0 0 1;
    feature 1 0 0 1; feature 1 0 0 1; feature 0 0 0 1 ].

(** A page with one paragraph. *)
Definition one_paragraph : PageFeatureSet := [feature (9 # 10) (1 # 4) 2 (8 # 10)].

(** Two consecutive pages whose mean symbol density goes from 0.10 to 0.30. *)
Definition page_010 : Variation.PageCharacteristics :=
  {| Variation.pc_page_number := 1;
     Variation.pc_confidence := 1 # 2;
     Variation.pc_symbol_density := 10 # 100;
     Variation.pc_line_breaks := 3 |}.

Definition page_030 : Variation.PageCharacteristics :=
  {| Variation.pc_page_number := 2;
     Variation.pc_confidence := 1 # 2;
     Variation.pc_symbol_density := 30 # 100;
     Variation.pc_line_breaks := 3 |}.

End Examples.

(** ** The detector read as a pure function *)

(** What [detect_page_anomalies] appends when no division fails; the
    properties section shows that it always agrees with the detector. *)
Module Flagging.
Import Anomaly.

(** The condition of one [if] of the loop body. *)
Definition flagged (v m : Q) (sd : R) : Prop :=
  (Q2R (Qabs (v - m)) > threshold * sd)%R.

(** The dict stored when the condition holds. *)
Definition entry_of (v m : Q) (sd : R) : option DimEntry :=
  if Rgt_dec (Q2R (Qabs (v - m))) (threshold * sd)
  then Some {| value := v;
               mean := m;
               deviation := (Q2R (Qabs (v - m)) / sd)%R |}
  else None.

(** The entry of paragraph [feature] of page [features] on dimension [d]. *)
Definition entry_on (features : PageFeatureSet) (d : Dim)
    (feature : ParagraphFeature) : option DimEntry :=
  entry_of (field d feature)
    (Py.np_mean (map (field d) features))
    (Py.np_std (map (field d) features)).

(** The records appended for paragraph [i]. *)
Definition records_of (features : PageFeatureSet) (page_num : nat)
    (i : nat) (feature : ParagraphFeature) : list AnomalyRecord :=
  if nonempty_anomaly (entry_on features Confidence feature)
       (entry_on features SymbolDensity feature)
       (entry_on features LineBreaks feature)
  then [ {| an_confidence := entry_on features Confidence feature;
            an_symbol_density := entry_on features SymbolDensity feature;
            an_line_breaks := entry_on features LineBreaks feature;
            paragraph_index := i;
            page_number := page_num + 1 |} ]
  else [].

End Flagging.

(** ** The summaries of the pages of a document *)

Module Aggregator.
Import Anomaly Variation.

(** The dict [page_characteristics] that [detect_internal_anomalies] builds
    for the page at position [page_num]. *)
Definition page_summary (page_num : nat) (page_features : PageFeatureSet)
    : PageCharacteristics :=
  {| pc_page_number := page_num + 1;
     pc_confidence := Py.np_mean (map (field Confidence) page_features);
     pc_symbol_density := Py.np_mean (map (field SymbolDensity) page_features);
     pc_line_breaks := Py.np_mean (map (field LineBreaks) page_features) |}.

(** The pages that the loop does not skip, with their positions. *)
Definition written_pages (features : DocumentFeatureSet)
    : list (nat * PageFeatureSet) :=
  filter (fun '(_, page_features) => negb (Py.is_empty page_features))
    (Py.enumerate features).

(** The list [page_variations] at the end of the loop. *)
Definition summaries (features : DocumentFeatureSet) : list PageCharacteristics :=
  map (fun '(page_num, page_features) => page_summary page_num page_features)
    (written_pages features).

End Aggregator.

(** ** The comparison of two documents, with its cache *)

Module Pipeline.
Import Anomaly Variation.

(** The tuple [response]. *)
Record Response : Type := mkResponse {
  similarity : Q;
  feature_scores : list (string * Q);
  anomalies1 : list AnomalyRecord;
  anomalies2 : list AnomalyRecord;
  variations1 : list VariationRecord;
  variations2 : list VariationRecord
}.

(** The directory [CACHE_DIR]: for a cache key, the decoded content of the
    file [<key>.json] when the file exists.  [json.dump] followed by
    [json.load] is taken as the identity on responses. *)
Definition Cache : Type := string -> option Response.

(** [load_from_cache(cache_key)]. *)
Definition load_from_cache (cache : Cache) (cache_key : string)
    : option Response :=
  cache cache_key.

(** [save_to_cache(cache_key, data)]: the directory afterwards. *)
Definition save_to_cache (cache : Cache) (cache_key : string) (data : Response)
    : Cache :=
  fun k => if String.eqb k cache_key then Some data else cache k.

(** What stops [compute_handwriting_similarity]. *)
Inductive Cause : Type :=
| CannotRasterize (pdf_path : string)
| CannotRead (file_path : string)
| Raised (e : Py.exn).

(** The function returns a value or raises
    [Exception("Error computing handwriting similarity: ...")]. *)
Inductive Outcome : Type :=
| Returned (response : Response)
| WrappedError (cause : Cause).

Section WithEnvironment.

(** The collaborators: the character database and the recognition service
    as before, the rasterizer, the files on disk, the hash function and the
    environment variable [GOOGLE_CLOUD_API_KEY]. *)
Variable unicode_isalnum : N -> bool.
Variable Image : Type.
Variable vision_post : Image -> string -> Vision.PostOutcome.
Variable convert_from_path : string -> option (list Image).
Variable read_bytes : string -> option string.
Variable md5_hexdigest : string -> string.
Variable environ_api_key : option string.

(** [get_cache_key(file_path)]: the digest of the file's bytes, when the
    file can be opened. *)
Definition get_cache_key (file_path : string) : option string :=
  option_map md5_hexdigest (read_bytes file_path).

(** The key as the request URL shows it; a missing variable is formatted
    as [None]. *)
Definition api_key : string := Py.get environ_api_key "None"%string.

(** [compute_handwriting_similarity(pdf_path1, pdf_path2)] on a cache
    directory, with the completion orders of the two extractions: the
    outcome and the directory afterwards. *)
Definition compute_handwriting_similarity (cache : Cache)
    (pdf_path1 pdf_path2 : string) (completion1 completion2 : list nat)
    : Outcome * Cache :=
  match convert_from_path pdf_path1 with
  | None => (WrappedError (CannotRasterize pdf_path1), cache)
  | Some images1 =>
  match convert_from_path pdf_path2 with
  | None => (WrappedError (CannotRasterize pdf_path2), cache)
  | Some images2 =>
  match get_cache_key pdf_path1 with
  | None => (WrappedError (CannotRead pdf_path1), cache)
  | Some key1 =>
  match get_cache_key pdf_path2 with
  | None => (WrappedError (CannotRead pdf_path2), cache)
  | Some key2 =>
      let cache_key := md5_hexdigest (key1 ++ key2) in
      match load_from_cache cache cache_key with
      | Some cached => (Returned cached, cache)
      | None =>
          let features1 :=
            Extractor.extract_handwriting_features unicode_isalnum Image
              vision_post images1 api_key completion1 in
          let features2 :=
            Extractor.extract_handwriting_features unicode_isalnum Image
              vision_post images2 api_key completion2 in
          match Internal.detect_internal_anomalies features1 with
          | inl e => (WrappedError (Raised e), cache)
          | inr (anomalies1, variations1) =>
          match Internal.detect_internal_anomalies features2 with
          | inl e => (WrappedError (Raised e), cache)
          | inr (anomalies2, variations2) =>
              let '(similarity, feature_scores) :=
                Scorer.compare_handwriting_features features1 features2 in
              let response :=
                {| similarity := Py.np_clip similarity 0 1;
                   feature_scores := feature_scores;
                   anomalies1 := anomalies1;
                   anomalies2 := anomalies2;
                   variations1 := variations1;
                   variations2 := variations2 |} in
              (Returned response, save_to_cache cache cache_key response)
          end
          end
      end
  end
  end
  end
  end.

End WithEnvironment.

End Pipeline.

(** * The program on binary64 numbers

    The modules above read every number as an exact one.  That reading
    leaves out what rounding, underflow, overflow and [nan] do to a result.
    This module embeds the numeric code a second time, on the doubles the
    program computes with ([float] is IEEE 754 binary64, rounding to
    nearest, ties to even).  A JSON number is taken as the double it is read
    as; an [int] enters a numpy computation through [of_int]. *)

Module Doubles.

Local Open Scope float_scope.

(** ** numpy on doubles *)

(** The conversion of an [int] to a double. *)
Definition of_int (z : Z) : float :=
  SF2Prim (binary_normalize prec emax z 0 false).

(** [len(xs)] as a double. *)
Definition len {A : Type} (xs : list A) : float :=
  of_int (Z.of_nat (List.length xs)).

(** The sum of an array as numpy's [add.reduce] computes it (the routine
    [pairwise_sum] of the [add] loop).  Fewer than eight elements are added
    in order.  Up to 128 elements are added in eight interleaved partial
    sums [r[0]], ..., [r[7]], which are combined as a tree before the
    elements after the last full block of eight are added in order.  A longer
    array is split in two, the first part a multiple of eight, and the sums
    of the parts are added.  (An array of integers is converted to doubles
    in chunks of 8192 elements, each summed in this way; a page is taken to
    have fewer paragraphs than that.) *)
Definition add_in_order (acc : float) (xs : list float) : float :=
  fold_left PrimFloat.add xs acc.

(** [r[j] += a[i + j]] for the eight partial sums. *)
Fixpoint add_lanes (r block : list float) : list float :=
  match r, block with
  | a :: r', b :: block' => (a + b) :: add_lanes r' block'
  | _, _ => r
  end.

(** [for (i = 8; i < n - (n % 8); i += 8)]: one round for each full block. *)
Fixpoint add_blocks (rounds : nat) (r xs : list float) : list float :=
  match rounds with
  | O => r
  | S rounds' => add_blocks rounds' (add_lanes r (firstn 8 xs)) (skipn 8 xs)
  end.

(** The sum of at most 128 elements.  The accumulator of the short loop
    starts from [-0.0], which adds nothing to any double (older versions of
    numpy start from [0.0]; the results differ only when every element is
    [-0.0]). *)
Definition sum_block (xs : list float) : float :=
  let n := List.length xs in
  let full := (n - n mod 8)%nat in
  match add_blocks (full / 8 - 1) (firstn 8 xs) (skipn 8 xs) with
  | [r0; r1; r2; r3; r4; r5; r6; r7] =>
      add_in_order (((r0 + r1) + (r2 + r3)) + ((r4 + r5) + (r6 + r7)))
        (skipn full xs)
  | _ => add_in_order (-0) xs
  end.

(** [depth] bounds the number of times the array is halved; the length of
    the array is always enough. *)
Fixpoint pairwise_sum (depth : nat) (xs : list float) : float :=
  let n := List.length xs in
  match depth with
  | O => sum_block xs
  | S depth' =>
      if (n <=? 128)%nat then sum_block xs
      else
        let n2 := (n / 2 - (n / 2) mod 8)%nat in
        pairwise_sum depth' (firstn n2 xs) + pairwise_sum depth' (skipn n2 xs)
  end.

(** [np.sum(xs)]; the sum of no element is [0.0]. *)
Definition np_sum (xs : list float) : float :=
  match xs with
  | [] => 0
  | _ :: _ => pairwise_sum (List.length xs) xs
  end.

(** [np.mean(xs)]: the sum over the number of elements ([nan] for no
    element, with a warning). *)
Definition np_mean (xs : list float) : float := np_sum xs / len xs.

(** [np.std(xs)]: the deviations from the mean are squared, their mean is
    taken and its square root returned. *)
Definition np_var (xs : list float) : float :=
  let arrmean := np_mean xs in
  np_sum (map (fun x => (x - arrmean) * (x - arrmean)) xs) / len xs.

Definition np_std (xs : list float) : float := PrimFloat.sqrt (np_var xs).

(** The maximum and the minimum as the loop of [np.clip] takes them: a
    [nan] value is returned as it is, any other is compared with the bound
    by [>] or [<]. *)
Definition np_maximum (a b : float) : float :=
  if is_nan a then a else if b <? a then a else b.

Definition np_minimum (a b : float) : float :=
  if is_nan a then a else if a <? b then a else b.

(** [np.clip(x, lo, hi)], that is [minimum(maximum(x, lo), hi)]. *)
Definition np_clip (x lo hi : float) : float :=
  np_minimum (np_maximum x lo) hi.

(** ** Data model *)

(** One dict appended to [page_features] by [process_image]. *)
Record ParagraphFeature : Type := mkParagraphFeature {
  confidence : float;
  word_count : nat;
  symbol_density : float;
  line_breaks : Z;
  average_symbol_confidence : float
}.

Definition PageFeatureSet : Type := list ParagraphFeature.
Definition DocumentFeatureSet : Type := list PageFeatureSet.

(** [feature[key]] as numpy reads it. *)
Definition field (d : Dim) (feature : ParagraphFeature) : float :=
  match d with
  | Confidence => confidence feature
  | SymbolDensity => symbol_density feature
  | LineBreaks => of_int (line_breaks feature)
  end.

(** ** Similarity scorer *)

(** The [weights] dict. *)
Definition w_confidence : float := 0.3.
Definition w_symbol_density : float := 0.3.
Definition w_line_breaks : float := 0.2.
Definition w_avg_confidence : float := 0.2.

(** [1 - abs(np.mean([f[k] for f in flat1]) - np.mean([f[k] for f in flat2]))]
    for the field read by [k]. *)
Definition dim_sim (k : ParagraphFeature -> float)
    (flat1 flat2 : list ParagraphFeature) : float :=
  1 - abs (np_mean (map k flat1) - np_mean (map k flat2)).

Definition line_breaks_f (f : ParagraphFeature) : float := of_int (line_breaks f).

(** The similarity and the [feature_scores] dict, in insertion order. *)
Definition ScoreResult : Type := (float * list (string * float))%type.

(** [compare_handwriting_features]. *)
Definition compare_handwriting_features
    (features1 features2 : DocumentFeatureSet) : ScoreResult :=
  if Py.is_empty features1 || Py.is_empty features2
     || Py.is_empty (hd [] features1) || Py.is_empty (hd [] features2)
  then (0, [])
  else
    let flat_features1 := concat features1 in
    let flat_features2 := concat features2 in
    if Py.is_empty flat_features1 || Py.is_empty flat_features2
    then (0, [])
    else
      let conf_sim := dim_sim confidence flat_features1 flat_features2 in
      let symbol_density_sim :=
        dim_sim symbol_density flat_features1 flat_features2 in
      let line_break_sim := dim_sim line_breaks_f flat_features1 flat_features2 in
      let avg_conf_sim :=
        dim_sim average_symbol_confidence flat_features1 flat_features2 in
      let feature_scores :=
        [ ("confidence_similarity"%string, np_clip conf_sim 0 1);
          ("symbol_density_similarity"%string, np_clip symbol_density_sim 0 1);
          ("line_break_similarity"%string, np_clip line_break_sim 0 1);
          ("average_confidence_similarity"%string, np_clip avg_conf_sim 0 1) ] in
      let similarity :=
        w_confidence * conf_sim
        + w_symbol_density * symbol_density_sim
        + w_line_breaks * line_break_sim
        + w_avg_confidence * avg_conf_sim in
      (np_clip similarity 0 1, feature_scores).



(** ** Anomaly detector *)

(** The dict stored under a flagged dimension. *)
Record DimEntry : Type := mkDimEntry {
  value : float;
  mean : float;
  deviation : float
}.

(** The [anomaly] dict of one paragraph, once it is appended. *)
Record AnomalyRecord : Type := mkAnomalyRecord {
  an_confidence : option DimEntry;
  an_symbol_density : option DimEntry;
  an_line_breaks : option DimEntry;
  paragraph_index : nat;
  page_number : nat
}.

(** [anomaly.get(key)]. *)
Definition cited (d : Dim) (r : AnomalyRecord) : option DimEntry :=
  match d with
  | Confidence => an_confidence r
  | SymbolDensity => an_symbol_density r
  | LineBreaks => an_line_breaks r
  end.

Definition threshold : float := 2.

(** One of the three [if] statements of the loop body.  The division is
    numpy's: a zero divisor gives [inf] and a warning, no exception. *)
Definition check_dim (v m sd : float) : option DimEntry :=
  if threshold * sd <? abs (v - m)
  then Some {| value := v; mean := m; deviation := abs (v - m) / sd |}
  else None.

(** The body of [for i, feature in enumerate(features)]. *)
Definition check_paragraph (page_num : nat)
    (confidence_mean confidence_std : float)
    (symbol_density_mean symbol_density_std : float)
    (line_breaks_mean line_breaks_std : float)
    (i : nat) (feature : ParagraphFeature) : list AnomalyRecord :=
  let c := check_dim (field Confidence feature) confidence_mean confidence_std in
  let s := check_dim (field SymbolDensity feature) symbol_density_mean
             symbol_density_std in
  let l := check_dim (field LineBreaks feature) line_breaks_mean
             line_breaks_std in
  match c, s, l with
  | None, None, None => []
  | _, _, _ => [ {| an_confidence := c;
                    an_symbol_density := s;
                    an_line_breaks := l;
                    paragraph_index := i;
                    page_number := page_num + 1 |} ]
  end.

(** [detect_page_anomalies(features, page_num)]. *)
Definition detect_page_anomalies (features : PageFeatureSet) (page_num : nat)
    : list AnomalyRecord :=
  let confidence_mean := np_mean (map (field Confidence) features) in
  let confidence_std := np_std (map (field Confidence) features) in
  let symbol_density_mean := np_mean (map (field SymbolDensity) features) in
  let symbol_density_std := np_std (map (field SymbolDensity) features) in
  let line_breaks_mean := np_mean (map (field LineBreaks) features) in
  let line_breaks_std := np_std (map (field LineBreaks) features) in
  flat_map
    (fun '(i, feature) =>
       check_paragraph page_num
         confidence_mean confidence_std
         symbol_density_mean symbol_density_std
         line_breaks_mean line_breaks_std i feature)
    (Py.enumerate features).

(** ** Page-variation analyzer *)

(** The [page_characteristics] dict of one non-empty page. *)
Record PageCharacteristics : Type := mkPageCharacteristics {
  pc_page_number : nat;
  pc_confidence : float;
  pc_symbol_density : float;
  pc_line_breaks : float
}.

(** One element of [variation["changes"]]. *)
Record Change : Type := mkChange {
  type : string;
  difference : float;
  description : string
}.

Record VariationRecord : Type := mkVariationRecord {
  from_page : nat;
  to_page : nat;
  changes : list Change
}.

Definition variation_threshold : float := 0.15.

(** [page[key]] for the key of a dimension. *)
Definition pc_field (d : Dim) (page : PageCharacteristics) : float :=
  match d with
  | Confidence => pc_confidence page
  | SymbolDensity => pc_symbol_density page
  | LineBreaks => pc_line_breaks page
  end.

(** The sign that Python prints before a number. *)
Definition sign (negative : bool) : string :=
  if negative then "-"%string else ""%string.

(** [f"{x:.1f}"] for a double: Python prints the multiple of one tenth that
    is nearest to the exact value of the double, the even one on a tie, and
    the words [inf] and [nan]. *)
Definition format_1f (x : float) : string :=
  match Prim2SF x with
  | S754_zero s => (sign s ++ "0.0")%string
  | S754_infinity s => (sign s ++ "inf")%string
  | S754_nan => "nan"%string
  | S754_finite s m e =>
      let tenths :=
        Variation.round_half_even (10 * (inject_Z (Z.pos m) * 2 ^ e))%Q in
      (sign s ++ Variation.decimal (tenths / 10) ++ "."
       ++ Variation.decimal (tenths mod 10))%string
  end.

(** The f-string of the description; [value * 100] is a product of doubles. *)
Definition describe (change_type : string) (v : float) : string :=
  (Variation.title (Variation.replace "_" " " change_type)
   ++ " changed by " ++ format_1f (v * 100) ++ "%")%string.

(** The [changes] dict of a pair of pages, in insertion order. *)
Definition changes_dict (prev_page curr_page : PageCharacteristics)
    : list (string * float) :=
  [ ("confidence"%string,
     abs (pc_confidence curr_page - pc_confidence prev_page));
    ("symbol_density"%string,
     abs (pc_symbol_density curr_page - pc_symbol_density prev_page));
    ("line_breaks"%string,
     abs (pc_line_breaks curr_page - pc_line_breaks prev_page)) ].

(** [value > threshold]. *)
Definition exceeds (v : float) : bool := variation_threshold <? v.

(** The inner [for change_type, value in changes.items()] loop. *)
Definition changes_of (prev_page curr_page : PageCharacteristics) : list Change :=
  flat_map
    (fun '(change_type, v) =>
       if exceeds v
       then [ {| type := change_type;
                 difference := v;
                 description := describe change_type v |} ]
       else [])
    (changes_dict prev_page curr_page).

(** The body of [for i in range(1, len(page_characteristics))]. *)
Definition step (prev_page curr_page : PageCharacteristics)
    : list VariationRecord :=
  let variation :=
    {| from_page := pc_page_number prev_page;
       to_page := pc_page_number curr_page;
       changes := changes_of prev_page curr_page |} in
  if Py.is_empty (changes variation) then [] else [variation].

(** [analyze_page_variations(page_characteristics)]. *)
Definition analyze_page_variations
    (page_characteristics : list PageCharacteristics) : list VariationRecord :=
  flat_map
    (fun i =>
       match nth_error page_characteristics (i - 1),
             nth_error page_characteristics i with
       | Some prev_page, Some curr_page => step prev_page curr_page
       | _, _ => []
       end)
    (seq 1 (List.length page_characteristics - 1)).

(** *** Rounding to one decimal, as a property *)

(** [t] is an integer nearest to [x], the even one when two are. *)
Definition nearest_even (x : Q) (t : Z) : Prop :=
  (Qabs (x - inject_Z t) <= 1 # 2)%Q
  /\ (Qabs (x - inject_Z t) == 1 # 2 -> Z.even t = true)%Q.

(** [text] shows the double [x] rounded to one decimal. *)
Definition one_decimal (x : float) (text : string) : Prop :=
  match Prim2SF x with
  | S754_zero s => text = (sign s ++ "0.0")%string
  | S754_infinity s => text = (sign s ++ "inf")%string
  | S754_nan => text = "nan"%string
  | S754_finite s m e =>
      exists tenths : Z,
        nearest_even (10 * (inject_Z (Z.pos m) * 2 ^ e))%Q tenths
        /\ text
           = (sign s
              ++ NilZero.string_of_uint (N.to_uint (Z.to_N (tenths / 10)))
              ++ "."
              ++ NilZero.string_of_uint (N.to_uint (Z.to_N (tenths mod 10))))%string
  end.

(** ** Concrete inputs *)

Definition feature (c sd : float) (lb : Z) (a : float) : ParagraphFeature :=
  {| confidence := c;
     word_count := 1;
     symbol_density := sd;
     line_breaks := lb;
     average_symbol_confidence := a |}.

(** A confidence of [0.1 * 2 ** -500], about [3e-152]. *)
Definition faint : float := 0.1 * 0x1p-500.

(** A page of three paragraphs that agree on every dimension. *)
Definition faint_page : PageFeatureSet :=
  [ feature faint 0.25 2 0.5; feature faint 0.25 2 0.5; feature faint 0.25 2 0.5 ].


Definition page_010 : PageCharacteristics :=
  {| pc_page_number := 1;
     pc_confidence := 0.9;
     pc_symbol_density := 0.10;
     pc_line_breaks := 2 |}.

Definition page_030 : PageCharacteristics :=
  {| pc_page_number := 2;
     pc_confidence := 0.9;
     pc_symbol_density := 0.30;
     pc_line_breaks := 2 |}.

Definition page_00000 : PageCharacteristics :=
  {| pc_page_number := 1;
     pc_confidence := 0;
     pc_symbol_density := 0.25;
     pc_line_breaks := 2 |}.

Definition page_02075 : PageCharacteristics :=
  {| pc_page_number := 2;
     pc_confidence := 0.2075;
     pc_symbol_density := 0.25;
     pc_line_breaks := 2 |}.

End Doubles.

(** * Properties *)

(** ** Similarity scorer *)

Lemma is_empty_true {A : Type} (xs : list A) : Py.is_empty xs = true <-> xs = [].
Proof. destruct xs; simpl; split; intros H; congruence. Qed.

Lemma np_clip_unit (x : Q) : 0 <= Py.np_clip x 0 1 <= 1.
Proof.
  unfold Py.np_clip. split.
  - apply Q.min_glb; [apply Q.le_max_r | discriminate].
  - apply Q.le_min_r.
Qed.

Lemma Qabs_minus_swap (a b : Q) : Qabs (a - b) = Qabs (b - a).
Proof.
  destruct a as [an ad], b as [bn bd].
  unfold Qminus, Qplus, Qopp, Qabs; simpl.
  f_equal; [ | apply Pos.mul_comm ].
  rewrite !Z.mul_opp_l. lia.
Qed.

Lemma dim_sim_swap k flat1 flat2 :
  Scorer.dim_sim k flat1 flat2 = Scorer.dim_sim k flat2 flat1.
Proof. unfold Scorer.dim_sim. now rewrite Qabs_minus_swap. Qed.

Lemma degenerate_guard (features1 features2 : DocumentFeatureSet) :
  Scorer.degenerate features1 features2 <->
  (Py.is_empty features1 || Py.is_empty features2
   || Py.is_empty (hd [] features1) || Py.is_empty (hd [] features2)) = true
  \/ (Py.is_empty (concat features1) || Py.is_empty (concat features2)) = true.
Proof.
  unfold Scorer.degenerate.
  rewrite !orb_true_iff, !is_empty_true. tauto.
Qed.

(** C5.  When either document has no page, or an empty first page, or no
    paragraph at all, the scorer returns the similarity [0] and an empty
    mapping of sub-scores; the function is total, so nothing is raised. *)
Theorem scorer_degenerate_zero (features1 features2 : DocumentFeatureSet) :
  Scorer.degenerate features1 features2 ->
  Scorer.compare_handwriting_features features1 features2 = (0, []).
Proof.
  intros H. apply degenerate_guard in H.
  unfold Scorer.compare_handwriting_features.
  destruct H as [H | H].
  - now rewrite H.
  - destruct (_ || _ || _ || _); [reflexivity | ].
    now rewrite H.
Qed.

(** A document without pages against a document of one paragraph. *)
Lemma scorer_degenerate_zero_witness :
  Scorer.degenerate [] Examples.doc_few_breaks
  /\ Scorer.compare_handwriting_features [] Examples.doc_few_breaks = (0, []).
Proof.
  assert (H : Scorer.degenerate [] Examples.doc_few_breaks) by (now left).
  split; [exact H | exact (scorer_degenerate_zero _ _ H)].
Defined.

(** C7.  The scorer gives the same result, composite score and sub-score
    mapping, when the two documents are swapped. *)
Theorem scorer_symmetric (A B : DocumentFeatureSet) :
  Scorer.compare_handwriting_features A B
  = Scorer.compare_handwriting_features B A.
Proof.
  unfold Scorer.compare_handwriting_features.
  replace (Py.is_empty B || Py.is_empty A || Py.is_empty (hd [] B)
           || Py.is_empty (hd [] A))
    with (Py.is_empty A || Py.is_empty B || Py.is_empty (hd [] A)
          || Py.is_empty (hd [] B))
    by (repeat match goal with |- context [Py.is_empty ?x] =>
                 destruct (Py.is_empty x) end; reflexivity).
  rewrite (orb_comm (Py.is_empty (concat B))).
  cbv zeta.
  rewrite (dim_sim_swap confidence (concat B)),
          (dim_sim_swap symbol_density (concat B)),
          (dim_sim_swap Scorer.line_breaks_q (concat B)),
          (dim_sim_swap average_symbol_confidence (concat B)).
  reflexivity.
Qed.

Lemma np_clip_id (x : Q) : 0 <= x -> x <= 1 -> Py.np_clip x 0 1 = x.
Proof.
  intros H0 H1. unfold Py.np_clip, Qmin, Qmax, GenericMinMax.gmin, GenericMinMax.gmax.
  destruct (Qcompare x 0) eqn:E0.
  - destruct (Qcompare x 1) eqn:E1; try reflexivity.
    apply Qgt_alt in E1. exfalso. apply (Qlt_irrefl x). eapply Qle_lt_trans; eauto.
  - apply Qlt_alt in E0. exfalso. apply (Qlt_irrefl x). eapply Qlt_le_trans; eauto.
  - destruct (Qcompare x 1) eqn:E1; try reflexivity.
    apply Qgt_alt in E1. exfalso. apply (Qlt_irrefl x). eapply Qle_lt_trans; eauto.
Qed.

Lemma dim_sim_le_1 k flat1 flat2 : Scorer.dim_sim k flat1 flat2 <= 1.
Proof.
  unfold Scorer.dim_sim.
  pose proof (Qabs_nonneg (Py.np_mean (map k flat1) - Py.np_mean (map k flat2))).
  lra.
Qed.

(** C1, as the code has it.  Outside the degenerate case the composite
    score is the weighted sum (0.3, 0.3, 0.2, 0.2) of the four similarities
    [1 - |mean1 - mean2|] taken before clamping, and that sum is clamped to
    [[0,1]]; the sub-scores of the mapping are the four similarities, each
    clamped to [[0,1]]. *)
Theorem scorer_composite_weighted_sum (features1 features2 : DocumentFeatureSet) :
  ~ Scorer.degenerate features1 features2 ->
  let sim k :=
    1 - Qabs (Py.np_mean (map k (concat features1))
              - Py.np_mean (map k (concat features2))) in
  Scorer.compare_handwriting_features features1 features2
  = (Py.np_clip
       ((3 # 10) * sim confidence
        + (3 # 10) * sim symbol_density
        + (2 # 10) * sim (fun f => inject_Z (line_breaks f))
        + (2 # 10) * sim average_symbol_confidence) 0 1,
     [ ("confidence_similarity"%string, Py.np_clip (sim confidence) 0 1);
       ("symbol_density_similarity"%string,
        Py.np_clip (sim symbol_density) 0 1);
       ("line_break_similarity"%string,
        Py.np_clip (sim (fun f => inject_Z (line_breaks f))) 0 1);
       ("average_confidence_similarity"%string,
        Py.np_clip (sim average_symbol_confidence) 0 1) ]).
Proof.
  intros H sim. rewrite degenerate_guard in H.
  unfold Scorer.compare_handwriting_features.
  destruct (_ || _ || _ || _); [exfalso; apply H; now left | ].
  cbv zeta.
  destruct (_ || _); [exfalso; apply H; now right | ].
  reflexivity.
Qed.

(** The two documents that differ by five line breaks score [0]. *)
Lemma scorer_composite_weighted_sum_witness :
  ~ Scorer.degenerate Examples.doc_few_breaks Examples.doc_many_breaks
  /\ fst (Scorer.compare_handwriting_features
            Examples.doc_few_breaks Examples.doc_many_breaks) == 0.
Proof.
  assert (H : ~ Scorer.degenerate Examples.doc_few_breaks Examples.doc_many_breaks).
  { rewrite degenerate_guard. simpl. intros [H | H]; discriminate. }
  split; [exact H | ].
  rewrite (scorer_composite_weighted_sum _ _ H).
  vm_compute. reflexivity.
Defined.

(** C1 fails as worded.  For two documents that differ by five line
    breaks only, the line-break similarity is [-4] before clamping: the code
    scores [0], the weighted sum of the clamped similarities is [0.8]. *)
Lemma scorer_composite_not_sum_of_clamped :
  ~ Scorer.degenerate Examples.doc_few_breaks Examples.doc_many_breaks
  /\ fst (Scorer.compare_handwriting_features
            Examples.doc_few_breaks Examples.doc_many_breaks) == 0
  /\ Scorer.spec_composite Examples.doc_few_breaks Examples.doc_many_breaks
     == 8 # 10
  /\ ~ fst (Scorer.compare_handwriting_features
              Examples.doc_few_breaks Examples.doc_many_breaks)
       == Scorer.spec_composite Examples.doc_few_breaks Examples.doc_many_breaks.
Proof.
  split; [ | split; [ | split ] ].
  - rewrite degenerate_guard. simpl. intros [H | H]; discriminate.
  - vm_compute. reflexivity.
  - vm_compute. reflexivity.
  - vm_compute. discriminate.
Qed.

(** When no mean differs by more than [1] between the two documents, no
    similarity is changed by its clamp and the two readings agree. *)
Lemma scorer_composite_as_worded_when_close (features1 features2 : DocumentFeatureSet) :
  ~ Scorer.degenerate features1 features2 ->
  (forall k, In k [confidence; symbol_density; Scorer.line_breaks_q;
                   average_symbol_confidence] ->
     Qabs (Py.np_mean (map k (concat features1))
           - Py.np_mean (map k (concat features2))) <= 1) ->
  fst (Scorer.compare_handwriting_features features1 features2)
  = Scorer.spec_composite features1 features2.
Proof.
  intros H Hclose. rewrite degenerate_guard in H.
  unfold Scorer.compare_handwriting_features, Scorer.spec_composite.
  destruct (_ || _ || _ || _); [exfalso; apply H; now left | ].
  cbv zeta.
  destruct (_ || _); [exfalso; apply H; now right | ].
  cbn [fst].
  assert (Hid : forall k, In k [confidence; symbol_density; Scorer.line_breaks_q;
                   average_symbol_confidence] ->
            Py.np_clip (Scorer.dim_sim k (concat features1) (concat features2)) 0 1
            = Scorer.dim_sim k (concat features1) (concat features2)).
  { intros k Hk. apply np_clip_id; [ | apply dim_sim_le_1 ].
    unfold Scorer.dim_sim. specialize (Hclose k Hk). lra. }
  rewrite !Hid by (simpl; tauto).
  reflexivity.
Qed.

(** ** Feature extraction *)

Section ExtractorFacts.
Import Vision.
Variable unicode_isalnum : N -> bool.

Lemma fold_add_ones {A : Type} (xs : list A) (acc : Z) :
  fold_left Z.add (map (fun _ => 1%Z) xs) acc = (acc + Z.of_nat (List.length xs))%Z.
Proof.
  revert acc. induction xs as [ | x xs IH]; intros acc; simpl List.length.
  - simpl. lia.
  - simpl fold_left. rewrite IH. lia.
Qed.

Lemma count_if_length (cond : Symbol -> bool) (ss : list Symbol) :
  Extractor.count_if cond ss = Z.of_nat (List.length (filter cond ss)).
Proof. unfold Extractor.count_if. now rewrite fold_add_ones. Qed.

Lemma len_nonzero {A : Type} (xs : list A) :
  xs <> [] -> Qeq_bool (Py.len xs) 0 = false.
Proof.
  intros H. destruct xs as [ | x xs]; [congruence | ].
  apply not_true_is_false. intros E. apply Qeq_bool_eq in E.
  unfold Py.len, Qeq in E. simpl in E. lia.
Qed.

(** C2, as the code has it.  For a paragraph with at least one word, the
    [symbol_density] of its feature record is the number of its symbols
    whose text is not alphanumeric over the number of its words. *)
Theorem paragraph_feature_symbol_density (paragraph : Paragraph)
    (ws : list Word) (f : ParagraphFeature) :
  words paragraph = Some ws ->
  ws <> [] ->
  Extractor.paragraph_feature unicode_isalnum paragraph = inr (Some f) ->
  symbol_density f
  = inject_Z (Z.of_nat (List.length
       (filter (Extractor.non_alnum unicode_isalnum) (Extractor.symbols_of ws))))
    / inject_Z (Z.of_nat (List.length ws)).
Proof.
  intros Hw Hne. unfold Extractor.paragraph_feature. rewrite Hw. cbn [Py.get].
  destruct ws as [ | w ws']; [congruence | ].
  cbn [Py.is_empty negb].
  unfold Py.div at 1. rewrite (len_nonzero (w :: ws')) by congruence.
  cbn [Py.bind].
  destruct (Py.div _ _) as [e | a]; cbn [Py.bind Py.ret]; [discriminate | ].
  intros E. injection E as <-. cbn [symbol_density].
  rewrite count_if_length. reflexivity.
Qed.

End ExtractorFacts.

(** Every paragraph that has words and no symbol raises. *)
Lemma paragraph_feature_zero_symbols (unicode_isalnum : N -> bool)
    (paragraph : Vision.Paragraph) (ws : list Vision.Word) :
  Vision.words paragraph = Some ws ->
  ws <> [] ->
  Extractor.symbols_of ws = [] ->
  Extractor.paragraph_feature unicode_isalnum paragraph
  = inl Py.ZeroDivisionError.
Proof.
  intros Hw Hne Hs. unfold Extractor.paragraph_feature. rewrite Hw. cbn [Py.get].
  destruct ws as [ | w ws']; [congruence | ].
  cbn [Py.is_empty negb].
  unfold Py.div at 1. rewrite (len_nonzero (w :: ws')) by congruence.
  cbn [Py.bind]. rewrite Hs. reflexivity.
Qed.

(** The paragraph [a,] has one word and one symbol that is not
    alphanumeric: its density is [1]. *)
Lemma paragraph_feature_symbol_density_witness :
  exists f,
    Extractor.paragraph_feature Examples.ascii_only Examples.par_a_comma
    = inr (Some f)
    /\ symbol_density f == 1.
Proof.
  eexists. split; [reflexivity | ].
  rewrite (paragraph_feature_symbol_density Examples.ascii_only
             Examples.par_a_comma _ _ eq_refl ltac:(discriminate) eq_refl).
  reflexivity.
Defined.

(** C2 fails as worded.  The paragraph [a,] has two symbols, one of them
    not alphanumeric, in one word: the code gives [1], the fraction of the
    symbols is [1/2]. *)
Lemma symbol_density_not_fraction_of_symbols :
  exists f,
    Extractor.paragraph_feature Examples.ascii_only Examples.par_a_comma
    = inr (Some f)
    /\ symbol_density f == 1
    /\ Extractor.spec_symbol_density Examples.ascii_only
         [Vision.mkWord (Some [Examples.sym "a" 1; Examples.sym "," 1])]
       == 1 # 2
    /\ ~ symbol_density f
         == Extractor.spec_symbol_density Examples.ascii_only
              [Vision.mkWord (Some [Examples.sym "a" 1; Examples.sym "," 1])].
Proof.
  eexists. split; [reflexivity | ].
  split; [reflexivity | ]. split; [reflexivity | ].
  vm_compute. discriminate.
Qed.

(** C3 on a failing input.  A paragraph of one word without symbols makes
    [average_symbol_confidence] divide by zero; the exception is caught by
    [process_image], which then returns no paragraph for the page, also not
    the paragraph [a,] that comes alone as one record. *)
Theorem process_image_zero_symbols_loses_page :
  Extractor.paragraph_feature Examples.ascii_only Examples.par_no_symbols
  = inl Py.ZeroDivisionError
  /\ Extractor.process_image Examples.ascii_only Vision.PostOutcome
       Examples.replay
       (Examples.answer [Examples.par_a_comma], "key"%string, 0%nat)
     = [ {| confidence := 9 # 10;
            word_count := 1;
            symbol_density := 1 / 1;
            line_breaks := 0;
            average_symbol_confidence := (0 + 1 + 1) / 2 |} ]
  /\ Extractor.process_image Examples.ascii_only Vision.PostOutcome
       Examples.replay
       (Examples.answer [Examples.par_a_comma; Examples.par_no_symbols],
        "key"%string, 0%nat)
     = [].
Proof. split; [reflexivity | split; reflexivity]. Qed.

Section ExtractionOrder.
Variable unicode_isalnum : N -> bool.
Variable Image : Type.
Variable vision_post : Image -> string -> Vision.PostOutcome.

Lemma as_completed_prefix {A : Type} (done futures : list A) :
  Extractor.as_completed (done ++ futures)
    (seq (List.length done) (List.length futures))
  = futures.
Proof.
  revert done. induction futures as [ | x futures IH]; intros done.
  - reflexivity.
  - unfold Extractor.as_completed in *. cbn [List.length seq flat_map].
    rewrite nth_error_app2, Nat.sub_diag by lia. cbn [nth_error app].
    f_equal.
    specialize (IH (done ++ [x])).
    rewrite <- app_assoc, length_app in IH. cbn [List.length app] in IH.
    rewrite Nat.add_1_r in IH. exact IH.
Qed.

Lemma as_completed_submission_order {A : Type} (futures : list A) :
  Extractor.as_completed futures (seq 0 (List.length futures)) = futures.
Proof. exact (as_completed_prefix [] futures). Qed.

Lemma futures_in_page_order (images : list Image) (api_key : string) (start : nat) :
  map (fun '(i, image) =>
         Extractor.process_image unicode_isalnum Image vision_post
           (image, api_key, i))
    (combine (seq start (List.length images)) images)
  = map (fun image =>
           Extractor.shape_response unicode_isalnum (vision_post image api_key))
      images.
Proof.
  revert start. induction images as [ | image images IH]; intros start.
  - reflexivity.
  - cbn [List.length seq combine map]. now rewrite IH.
Qed.

(** When the tasks are yielded in the order of submission, the features
    come in page order. *)
Lemma extract_submission_order (images : list Image) (api_key : string) :
  Extractor.extract_handwriting_features unicode_isalnum Image vision_post
    images api_key (seq 0 (List.length images))
  = map (fun image =>
           Extractor.shape_response unicode_isalnum (vision_post image api_key))
      images.
Proof.
  unfold Extractor.extract_handwriting_features, Py.enumerate.
  rewrite futures_in_page_order.
  rewrite <- (length_map
                (fun image =>
                   Extractor.shape_response unicode_isalnum
                     (vision_post image api_key)) images) at 1.
  apply as_completed_submission_order.
Qed.

(** Whatever the completion order, no page is lost or repeated. *)
Lemma extract_permutation (images : list Image) (api_key : string)
    (completion : list nat) :
  Extractor.completion_order (List.length images) completion ->
  Permutation
    (Extractor.extract_handwriting_features unicode_isalnum Image vision_post
       images api_key completion)
    (map (fun image =>
            Extractor.shape_response unicode_isalnum (vision_post image api_key))
       images).
Proof.
  intros H. rewrite <- extract_submission_order.
  unfold Extractor.extract_handwriting_features, Extractor.as_completed.
  apply Permutation_flat_map. exact H.
Qed.

End ExtractionOrder.

(** C8 on a failing input.  For a written first page and a blank second
    page, the features come in page order when the tasks finish in the order
    of submission, and in the opposite order when the second task finishes
    first. *)
Theorem extract_follows_completion_order :
  let extract :=
    Extractor.extract_handwriting_features Examples.ascii_only
      Vision.PostOutcome Examples.replay
      [Examples.written_page; Examples.blank_page] "key" in
  let page1 :=
    Extractor.process_image Examples.ascii_only Vision.PostOutcome
      Examples.replay (Examples.written_page, "key"%string, 0%nat) in
  let page2 :=
    Extractor.process_image Examples.ascii_only Vision.PostOutcome
      Examples.replay (Examples.blank_page, "key"%string, 1%nat) in
  Extractor.completion_order 2 [1; 0]%nat
  /\ extract [0; 1]%nat = [page1; page2]
  /\ extract [1; 0]%nat = [page2; page1]
  /\ extract [1; 0]%nat <> [page1; page2].
Proof.
  cbv zeta. split; [ | split; [ | split ] ].
  - unfold Extractor.completion_order. simpl. apply perm_swap.
  - reflexivity.
  - reflexivity.
  - discriminate.
Qed.

(** The order of completion reaches the score: the same document compared
    with itself scores [1] when its pages come in page order and [0] when
    its blank second page comes first. *)
Lemma completion_order_changes_similarity :
  let extract :=
    Extractor.extract_handwriting_features Examples.ascii_only
      Vision.PostOutcome Examples.replay
      [Examples.written_page; Examples.blank_page] "key" in
  fst (Scorer.compare_handwriting_features
         (extract [0; 1]%nat) (extract [0; 1]%nat)) == 1
  /\ Scorer.compare_handwriting_features
       (extract [1; 0]%nat) (extract [1; 0]%nat) = (0, []).
Proof. cbv zeta. split; vm_compute; reflexivity. Qed.

(** ** Sums, means and standard deviations *)

Lemma fold_Qplus_zero (xs : list Q) (acc : Q) :
  (forall x, In x xs -> 0 <= x) -> 0 <= acc ->
  fold_left Qplus xs acc == 0 ->
  acc == 0 /\ forall x, In x xs -> x == 0.
Proof.
  revert acc. induction xs as [ | y xs IH]; intros acc Hxs Hacc Hsum.
  - split; [exact Hsum | intros x []].
  - cbn [fold_left] in Hsum.
    assert (Hy : 0 <= y) by (apply Hxs; now left).
    destruct (IH (acc + y)) as [Hay Hrest].
    + intros x Hx. apply Hxs. now right.
    + lra.
    + exact Hsum.
    + split; [lra | ].
      intros x [<- | Hx]; [lra | now apply Hrest].
Qed.

Lemma fold_Qplus_nonneg (xs : list Q) (acc : Q) :
  (forall x, In x xs -> 0 <= x) -> 0 <= acc -> 0 <= fold_left Qplus xs acc.
Proof.
  revert acc. induction xs as [ | y xs IH]; intros acc Hxs Hacc.
  - exact Hacc.
  - cbn [fold_left]. apply IH.
    + intros x Hx. apply Hxs. now right.
    + assert (0 <= y) by (apply Hxs; now left). lra.
Qed.

Lemma len_pos {A : Type} (xs : list A) : xs <> [] -> 0 < Py.len xs.
Proof.
  intros H. destruct xs as [ | x xs]; [congruence | ].
  unfold Py.len, Qlt. simpl. lia.
Qed.

Lemma len_nonneg {A : Type} (xs : list A) : 0 <= Py.len xs.
Proof. unfold Py.len, Qle. simpl. lia. Qed.

Lemma np_mean_nonneg (xs : list Q) :
  (forall x, In x xs -> 0 <= x) -> 0 <= Py.np_mean xs.
Proof.
  intros H. unfold Py.np_mean, Qdiv. apply Qmult_le_0_compat.
  - apply fold_Qplus_nonneg; [exact H | discriminate].
  - apply Qinv_le_0_compat, len_nonneg.
Qed.

Lemma np_mean_zero (xs : list Q) :
  (forall x, In x xs -> 0 <= x) ->
  Py.np_mean xs == 0 -> forall x, In x xs -> x == 0.
Proof.
  intros Hxs Hmean x Hx.
  assert (Hne : xs <> []) by (intros ->; destruct Hx).
  assert (Hsum : Py.sum xs == 0).
  { pose proof (len_pos xs Hne) as Hlen.
    unfold Py.np_mean in Hmean.
    rewrite <- (Qmult_div_r (Py.sum xs) (Py.len xs)) by lra.
    rewrite Hmean. ring. }
  apply (fold_Qplus_zero xs 0 Hxs); [discriminate | exact Hsum | exact Hx].
Qed.

Lemma sq_abs_nonneg (x : Q) : 0 <= Qabs x * Qabs x.
Proof. apply Qmult_le_0_compat; apply Qabs_nonneg. Qed.

Lemma squares_nonneg (m : Q) (xs : list Q) (y : Q) :
  In y (map (fun x => Qabs (x - m) * Qabs (x - m)) xs) -> 0 <= y.
Proof.
  intros Hy. apply in_map_iff in Hy as [x [<- _]]. apply sq_abs_nonneg.
Qed.

Lemma np_var_nonneg (xs : list Q) : 0 <= Py.np_var xs.
Proof. unfold Py.np_var. apply np_mean_nonneg, squares_nonneg. Qed.

Lemma np_var_zero (xs : list Q) :
  Py.np_var xs == 0 -> forall x, In x xs -> x == Py.np_mean xs.
Proof.
  intros Hvar x Hx. unfold Py.np_var in Hvar.
  assert (Hsq : Qabs (x - Py.np_mean xs) * Qabs (x - Py.np_mean xs) == 0).
  { apply (np_mean_zero _ (squares_nonneg _ xs) Hvar).
    apply in_map_iff. exists x. split; [reflexivity | exact Hx]. }
  assert (Habs : Qabs (x - Py.np_mean xs) == 0).
  { destruct (Qmult_integral _ _ Hsq); assumption. }
  assert (H0 : x - Py.np_mean xs == 0).
  { pose proof (Qabs_nonneg (x - Py.np_mean xs)).
    pose proof (Qle_Qabs (x - Py.np_mean xs)).
    pose proof (Qle_Qabs (- (x - Py.np_mean xs))) as Hopp.
    rewrite Qabs_opp in Hopp. lra. }
  lra.
Qed.

Lemma Q2R_zero : Q2R 0 = 0%R.
Proof. unfold Q2R. simpl. lra. Qed.

Lemma np_std_nonneg (xs : list Q) : (0 <= Py.np_std xs)%R.
Proof. apply sqrt_pos. Qed.

Lemma np_std_zero (xs : list Q) :
  Py.np_std xs = 0%R -> forall x, In x xs -> x == Py.np_mean xs.
Proof.
  intros Hstd. apply np_var_zero.
  apply eqR_Qeq. rewrite Q2R_zero.
  apply sqrt_eq_0; [ | exact Hstd ].
  rewrite <- Q2R_zero. apply Qle_Rle, np_var_nonneg.
Qed.

(** ** Anomaly detector *)

Lemma sequence_inv {A : Type} (ms : list (Py.raises A)) (l : list A) :
  Py.sequence ms = inr l -> Forall2 (fun m a => m = inr a) ms l.
Proof.
  revert l. induction ms as [ | m ms IH]; intros l H.
  - injection H as <-. constructor.
  - cbn [Py.sequence] in H. destruct m as [e | a]; [discriminate | ].
    cbn [Py.bind] in H.
    destruct (Py.sequence ms) as [e | l']; [discriminate | ].
    injection H as <-. constructor; [reflexivity | now apply IH].
Qed.

Lemma sequence_total {A : Type} (ms : list (Py.raises A)) :
  (forall m, In m ms -> exists a, m = inr a) ->
  exists l, Py.sequence ms = inr l.
Proof.
  induction ms as [ | m ms IH]; intros H.
  - now exists [].
  - destruct (H m (or_introl eq_refl)) as [a ->].
    destruct IH as [l Hl]; [intros m' Hm'; apply H; now right | ].
    exists (a :: l). cbn [Py.sequence Py.bind]. now rewrite Hl.
Qed.

Lemma abs_diff_zero (v m : Q) : v == m -> Q2R (Qabs (v - m)) = 0%R.
Proof.
  intros H. rewrite <- Q2R_zero. apply Qeq_eqR.
  rewrite H. setoid_replace (m - m) with 0 by ring. reflexivity.
Qed.

(** A dimension without spread is never flagged, and a flagged dimension
    never has a zero divisor. *)
Lemma check_dim_total (v m : Q) (sd : R) :
  (sd = 0%R -> v == m) ->
  exists o, Anomaly.check_dim v m sd = inr o /\ (sd = 0%R -> o = None).
Proof.
  intros Hflat. unfold Anomaly.check_dim, Anomaly.threshold.
  destruct (Rgt_dec _ _) as [Hgt | Hle].
  - unfold Py.np_div. destruct (Req_dec_T sd 0) as [H0 | Hne].
    + exfalso. rewrite (abs_diff_zero v m (Hflat H0)), H0 in Hgt. lra.
    + cbn [Py.bind Py.ret]. eexists. split; [reflexivity | ].
      intros H0. contradiction.
  - exists None. split; [reflexivity | reflexivity].
Qed.

Lemma check_dim_entry (v m : Q) (sd : R) (e : Anomaly.DimEntry) :
  (0 <= sd)%R ->
  Anomaly.check_dim v m sd = inr (Some e) ->
  Anomaly.value e = v /\ Anomaly.mean e = m
  /\ Anomaly.deviation e = (Q2R (Qabs (v - m)) / sd)%R
  /\ (Anomaly.deviation e > 2)%R.
Proof.
  intros Hsd. unfold Anomaly.check_dim, Anomaly.threshold.
  set (a := Q2R (Qabs (v - m))).
  destruct (Rgt_dec _ _) as [Hgt | Hle]; [ | discriminate ].
  unfold Py.np_div. destruct (Req_dec_T sd 0) as [H0 | Hne]; [discriminate | ].
  cbn [Py.bind Py.ret]. intros E. injection E as <-.
  cbn [Anomaly.value Anomaly.mean Anomaly.deviation].
  split; [reflexivity | split; [reflexivity | split; [reflexivity | ] ] ].
  apply Rlt_gt, (Rmult_lt_reg_r sd); [lra | ].
  unfold Rdiv. rewrite Rmult_assoc, Rinv_l by exact Hne. lra.
Qed.

Lemma two_sqrt_lt (a x : R) :
  (0 <= x -> 0 <= a -> 4 * x < a * a -> 2 * sqrt x < a)%R.
Proof.
  intros Hx Ha H. pose proof (sqrt_pos x) as Hs.
  pose proof (sqrt_sqrt x Hx) as Hss. nra.
Qed.

Lemma two_sqrt_ge (a x : R) :
  (0 <= x -> a * a <= 4 * x -> a <= 2 * sqrt x)%R.
Proof.
  intros Hx H. pose proof (sqrt_pos x) as Hs.
  pose proof (sqrt_sqrt x Hx) as Hss. nra.
Qed.

Lemma Q2R_four_times (x : Q) : Q2R (4 * x) = (4 * Q2R x)%R.
Proof. rewrite Q2R_mult. unfold Q2R at 1. simpl. lra. Qed.

(** The test of the detector on rationals: a value is flagged when the
    square of its distance to the mean exceeds four times the variance. *)
Lemma check_dim_std_flagged (v m : Q) (xs : list Q) :
  0 < Py.np_var xs ->
  4 * Py.np_var xs < Qabs (v - m) * Qabs (v - m) ->
  Anomaly.check_dim v m (Py.np_std xs)
  = inr (Some {| Anomaly.value := v;
                 Anomaly.mean := m;
                 Anomaly.deviation := (Q2R (Qabs (v - m)) / Py.np_std xs)%R |}).
Proof.
  intros Hvar Hflag. unfold Anomaly.check_dim, Anomaly.threshold, Py.np_std.
  apply Qlt_Rlt in Hvar, Hflag.
  rewrite Q2R_zero in Hvar. rewrite Q2R_four_times, Q2R_mult in Hflag.
  pose proof (Qle_Rle _ _ (Qabs_nonneg (v - m))) as Hab. rewrite Q2R_zero in Hab.
  set (a := Q2R (Qabs (v - m))) in *. set (x := Q2R (Py.np_var xs)) in *.
  pose proof (sqrt_lt_R0 x Hvar) as Hs.
  destruct (Rgt_dec a (2 * sqrt x)) as [Hgt | Hle].
  - unfold Py.np_div. destruct (Req_dec_T (sqrt x) 0) as [H0 | Hne]; [lra | ].
    reflexivity.
  - exfalso. apply Hle, Rlt_gt, two_sqrt_lt; lra.
Qed.

Lemma check_dim_std_quiet (v m : Q) (xs : list Q) :
  Qabs (v - m) * Qabs (v - m) <= 4 * Py.np_var xs ->
  Anomaly.check_dim v m (Py.np_std xs) = inr None.
Proof.
  intros Hquiet. unfold Anomaly.check_dim, Anomaly.threshold, Py.np_std.
  apply Qle_Rle in Hquiet. rewrite Q2R_four_times, Q2R_mult in Hquiet.
  pose proof (Qle_Rle _ _ (np_var_nonneg xs)) as Hvar. rewrite Q2R_zero in Hvar.
  set (a := Q2R (Qabs (v - m))) in *. set (x := Q2R (Py.np_var xs)) in *.
  destruct (Rgt_dec a (2 * sqrt x)) as [Hgt | Hle]; [ | reflexivity ].
  exfalso. pose proof (two_sqrt_ge a x Hvar Hquiet). lra.
Qed.

Lemma check_paragraph_inv (page_num : nat) (cm : Q) (cs : R) (sm : Q) (ss : R)
    (lm : Q) (ls : R) (i : nat) (f : ParagraphFeature)
    (rs : list Anomaly.AnomalyRecord) (r : Anomaly.AnomalyRecord) :
  Anomaly.check_paragraph page_num cm cs sm ss lm ls i f = inr rs ->
  In r rs ->
  Anomaly.check_dim (Anomaly.field Confidence f) cm cs
  = inr (Anomaly.an_confidence r)
  /\ Anomaly.check_dim (Anomaly.field SymbolDensity f) sm ss
     = inr (Anomaly.an_symbol_density r)
  /\ Anomaly.check_dim (Anomaly.field LineBreaks f) lm ls
     = inr (Anomaly.an_line_breaks r)
  /\ Anomaly.paragraph_index r = i
  /\ Anomaly.page_number r = (page_num + 1)%nat
  /\ Anomaly.nonempty_anomaly (Anomaly.an_confidence r)
       (Anomaly.an_symbol_density r) (Anomaly.an_line_breaks r) = true.
Proof.
  unfold Anomaly.check_paragraph.
  destruct (Anomaly.check_dim _ cm cs) as [e | c]; [discriminate | ].
  destruct (Anomaly.check_dim _ sm ss) as [e | s]; [discriminate | ].
  destruct (Anomaly.check_dim _ lm ls) as [e | l]; [discriminate | ].
  cbn [Py.bind].
  destruct (Anomaly.nonempty_anomaly c s l) eqn:Hne; cbn [Py.ret];
    intros E; injection E as <-; intros Hr; [ | destruct Hr ].
  destruct Hr as [<- | []]. repeat split. exact Hne.
Qed.

Lemma check_paragraph_total (page_num : nat) (cm : Q) (cs : R) (sm : Q) (ss : R)
    (lm : Q) (ls : R) (i : nat) (f : ParagraphFeature) :
  (cs = 0%R -> Anomaly.field Confidence f == cm) ->
  (ss = 0%R -> Anomaly.field SymbolDensity f == sm) ->
  (ls = 0%R -> Anomaly.field LineBreaks f == lm) ->
  exists rs, Anomaly.check_paragraph page_num cm cs sm ss lm ls i f = inr rs.
Proof.
  intros Hc Hs Hl. unfold Anomaly.check_paragraph.
  destruct (check_dim_total _ cm cs Hc) as [c [-> _]].
  destruct (check_dim_total _ sm ss Hs) as [s [-> _]].
  destruct (check_dim_total _ lm ls Hl) as [l [-> _]].
  cbn [Py.bind].
  destruct (Anomaly.nonempty_anomaly c s l); eexists; reflexivity.
Qed.

Lemma in_enumerate {A : Type} (xs : list A) (i : nat) (x : A) :
  In (i, x) (Py.enumerate xs) -> nth_error xs i = Some x.
Proof.
  unfold Py.enumerate.
  assert (H : forall start, In (i, x) (combine (seq start (List.length xs)) xs) ->
            (start <= i)%nat /\ nth_error xs (i - start) = Some x).
  { induction xs as [ | y ys IH]; intros start Hin; [destruct Hin | ].
    cbn [List.length seq combine] in Hin. destruct Hin as [E | Hin].
    - injection E as <- <-. rewrite Nat.sub_diag. split; [lia | reflexivity].
    - destruct (IH _ Hin) as [Hle Hnth]. split; [lia | ].
      replace (i - start)%nat with (S (i - S start)) by lia. exact Hnth. }
  intros Hin. destruct (H 0%nat Hin) as [_ Hnth].
  now rewrite Nat.sub_0_r in Hnth.
Qed.

Lemma Forall2_In_r {A B : Type} (R : A -> B -> Prop) (l : list A) (l' : list B)
    (b : B) :
  Forall2 R l l' -> In b l' -> exists a, In a l /\ R a b.
Proof.
  induction 1 as [ | a b' l l' Hab _ IH]; intros Hin; [destruct Hin | ].
  destruct Hin as [<- | Hin].
  - exists a. split; [now left | exact Hab].
  - destruct (IH Hin) as [a' [Ha' HR]]. exists a'. split; [now right | exact HR].
Qed.

(** Every record of a page comes from one paragraph of the page, checked
    against the page's own means and standard deviations. *)
Lemma detect_page_anomalies_inv (features : PageFeatureSet) (page_num : nat)
    (records : list Anomaly.AnomalyRecord) (r : Anomaly.AnomalyRecord) :
  Anomaly.detect_page_anomalies features page_num = inr records ->
  In r records ->
  exists i f,
    nth_error features i = Some f
    /\ Anomaly.paragraph_index r = i
    /\ Anomaly.page_number r = (page_num + 1)%nat
    /\ (exists d, Anomaly.cited d r <> None)
    /\ forall d,
         Anomaly.check_dim (Anomaly.field d f)
           (Py.np_mean (map (Anomaly.field d) features))
           (Py.np_std (map (Anomaly.field d) features))
         = inr (Anomaly.cited d r).
Proof.
  unfold Anomaly.detect_page_anomalies. cbv zeta.
  destruct (Py.sequence _) as [e | per_paragraph] eqn:Hseq; [discriminate | ].
  cbn [Py.bind Py.ret]. intros E Hr. injection E as <-.
  apply in_concat in Hr as [rs [Hrs Hr]].
  apply sequence_inv in Hseq.
  destruct (Forall2_In_r _ _ _ _ Hseq Hrs) as [m [Hm ->]].
  apply in_map_iff in Hm as [[i f] [Hcheck Hin]].
  destruct (check_paragraph_inv _ _ _ _ _ _ _ _ _ _ _ Hcheck Hr)
    as [Hc [Hs [Hl [Hi [Hp Hne]]]]].
  exists i, f. split; [now apply in_enumerate | ].
  split; [exact Hi | split; [exact Hp | split ] ].
  - destruct (Anomaly.an_confidence r) eqn:Ec;
      [exists Confidence; cbn [Anomaly.cited]; congruence | ].
    destruct (Anomaly.an_symbol_density r) eqn:Es;
      [exists SymbolDensity; cbn [Anomaly.cited]; congruence | ].
    destruct (Anomaly.an_line_breaks r) eqn:El;
      [exists LineBreaks; cbn [Anomaly.cited]; congruence | ].
    discriminate.
  - intros [ | | ]; assumption.
Qed.

(** The detector returns for every page: no division has a zero divisor. *)
Lemma detect_page_anomalies_total (features : PageFeatureSet) (page_num : nat) :
  exists records, Anomaly.detect_page_anomalies features page_num = inr records.
Proof.
  unfold Anomaly.detect_page_anomalies. cbv zeta.
  destruct (sequence_total
    (map (fun '(i, feature) =>
            Anomaly.check_paragraph page_num
              (Py.np_mean (map (Anomaly.field Confidence) features))
              (Py.np_std (map (Anomaly.field Confidence) features))
              (Py.np_mean (map (Anomaly.field SymbolDensity) features))
              (Py.np_std (map (Anomaly.field SymbolDensity) features))
              (Py.np_mean (map (Anomaly.field LineBreaks) features))
              (Py.np_std (map (Anomaly.field LineBreaks) features)) i feature)
       (Py.enumerate features))) as [per_paragraph Hseq].
  - intros m Hm. apply in_map_iff in Hm as [[i f] [<- Hin]].
    apply in_enumerate, nth_error_In in Hin.
    apply check_paragraph_total; intros H0; apply (np_std_zero _ H0);
      now apply in_map.
  - rewrite Hseq. eexists. reflexivity.
Qed.

(** C10.  Every entry of every record that the detector returns holds the
    deviation [|value - mean| / std] of its paragraph on its dimension, and
    that deviation is greater than [2]. *)
Theorem anomaly_deviation_above_threshold (features : PageFeatureSet)
    (page_num : nat) (records : list Anomaly.AnomalyRecord)
    (r : Anomaly.AnomalyRecord) (d : Dim) (e : Anomaly.DimEntry) :
  Anomaly.detect_page_anomalies features page_num = inr records ->
  In r records ->
  Anomaly.cited d r = Some e ->
  exists f,
    nth_error features (Anomaly.paragraph_index r) = Some f
    /\ Anomaly.deviation e
       = (Q2R (Qabs (Anomaly.field d f
                     - Py.np_mean (map (Anomaly.field d) features)))
          / Py.np_std (map (Anomaly.field d) features))%R
    /\ (Anomaly.deviation e > 2)%R.
Proof.
  intros Hrec Hr He.
  destruct (detect_page_anomalies_inv _ _ _ _ Hrec Hr)
    as [i [f [Hnth [Hi [_ [_ Hdims]]]]]].
  specialize (Hdims d). rewrite He in Hdims.
  destruct (check_dim_entry _ _ _ _ (np_std_nonneg _) Hdims)
    as [_ [_ [Hdev Hgt]]].
  exists f. rewrite Hi. auto.
Qed.

Lemma np_std_single (x : Q) : Py.np_std [x] = 0%R.
Proof.
  unfold Py.np_std.
  replace (Q2R (Py.np_var [x])) with 0%R; [apply sqrt_0 | ].
  rewrite <- Q2R_zero. apply Qeq_eqR.
  unfold Py.np_var, Py.np_mean, Py.sum, Py.len. cbn [map fold_left List.length].
  assert (H : x - (0 + x) / inject_Z (Z.of_nat 1) == 0) by (simpl; field).
  rewrite H. reflexivity.
Qed.

(** A page with one paragraph has no anomaly. *)
Lemma single_paragraph_no_anomaly (f : ParagraphFeature) (page_num : nat) :
  Anomaly.detect_page_anomalies [f] page_num = inr [].
Proof.
  destruct (detect_page_anomalies_total [f] page_num) as [records Hrec].
  rewrite Hrec. f_equal.
  destruct records as [ | r rs]; [reflexivity | exfalso].
  destruct (detect_page_anomalies_inv _ _ _ _ Hrec (or_introl eq_refl))
    as [i [g [Hnth [_ [_ [[d Hd] Hdims]]]]]].
  specialize (Hdims d). cbn [map] in Hdims.
  destruct (check_dim_total (Anomaly.field d g)
              (Py.np_mean [Anomaly.field d f])
              (Py.np_std [Anomaly.field d f])) as [o [Ho Hnone]].
  - intros _. apply nth_error_In in Hnth. destruct Hnth as [<- | []].
    apply (np_std_zero [Anomaly.field d f] (np_std_single _)). now left.
  - rewrite Ho in Hdims. injection Hdims as E.
    apply Hd. rewrite <- E. apply Hnone, np_std_single.
Qed.

(** On the page of six paragraphs the detector flags the sixth, and only its
    confidence. *)
Lemma six_paragraphs_anomaly :
  Anomaly.detect_page_anomalies Examples.six_paragraphs 0
  = inr [ {| Anomaly.an_confidence :=
               Some {| Anomaly.value := 0;
                       Anomaly.mean :=
                         Py.np_mean (map (Anomaly.field Confidence)
                                       Examples.six_paragraphs);
                       Anomaly.deviation :=
                         (Q2R (Qabs (0 - Py.np_mean
                                           (map (Anomaly.field Confidence)
                                              Examples.six_paragraphs)))
                          / Py.np_std (map (Anomaly.field Confidence)
                                         Examples.six_paragraphs))%R |};
             Anomaly.an_symbol_density := None;
             Anomaly.an_line_breaks := None;
             Anomaly.paragraph_index := 5;
             Anomaly.page_number := 0 + 1 |} ].
Proof.
  unfold Anomaly.detect_page_anomalies. cbv zeta.
  set (cm := Py.np_mean (map (Anomaly.field Confidence) Examples.six_paragraphs)).
  set (cx := map (Anomaly.field Confidence) Examples.six_paragraphs).
  set (sm := Py.np_mean (map (Anomaly.field SymbolDensity) Examples.six_paragraphs)).
  set (sx := map (Anomaly.field SymbolDensity) Examples.six_paragraphs).
  set (lm := Py.np_mean (map (Anomaly.field LineBreaks) Examples.six_paragraphs)).
  set (lx := map (Anomaly.field LineBreaks) Examples.six_paragraphs).
  unfold Py.enumerate, Examples.six_paragraphs.
  cbn [List.length seq combine map Py.sequence].
  unfold Anomaly.check_paragraph, Examples.feature.
  cbn [Anomaly.field confidence symbol_density line_breaks].
  rewrite !(check_dim_std_quiet 1 cm cx) by (vm_compute; discriminate).
  rewrite !(check_dim_std_quiet 0 sm sx) by (vm_compute; discriminate).
  rewrite !(check_dim_std_quiet (inject_Z 0) lm lx) by (vm_compute; discriminate).
  rewrite (check_dim_std_flagged 0 cm cx) by (vm_compute; reflexivity).
  reflexivity.
Qed.

(** The sixth of the six paragraphs is cited for its confidence. *)
Lemma anomaly_deviation_above_threshold_witness :
  exists r e,
    Anomaly.detect_page_anomalies Examples.six_paragraphs 0 = inr [r]
    /\ Anomaly.cited Confidence r = Some e
    /\ Anomaly.paragraph_index r = 5%nat
    /\ (Anomaly.deviation e > 2)%R.
Proof.
  eexists. eexists.
  split; [exact six_paragraphs_anomaly | ].
  split; [reflexivity | ].
  split; [reflexivity | ].
  destruct (anomaly_deviation_above_threshold Examples.six_paragraphs 0 _ _
              Confidence _ six_paragraphs_anomaly (or_introl eq_refl) eq_refl)
    as [f [_ [_ Hgt]]].
  exact Hgt.
Defined.

(** ** Page-variation analyzer *)

Lemma exceeds_iff (v : Q) : Variation.exceeds v = true <-> 15 # 100 < v.
Proof.
  unfold Variation.exceeds, Variation.threshold.
  destruct (Qlt_le_dec (15 # 100) v) as [Hlt | Hle]; split; intros H;
    try assumption; try reflexivity; try discriminate.
  exfalso. apply (Qlt_irrefl v). eapply Qle_lt_trans; eauto.
Qed.

Lemma dim_key_inj (d d' : Dim) : dim_key d = dim_key d' -> d = d'.
Proof. destruct d, d'; simpl; intros H; try reflexivity; discriminate. Qed.

(** The entry that the analyzer writes for a dimension. *)
Lemma changes_of_spec (prev_page curr_page : Variation.PageCharacteristics)
    (c : Variation.Change) :
  In c (Variation.changes_of prev_page curr_page) <->
  exists d,
    15 # 100 < Qabs (Variation.pc_field d curr_page
                     - Variation.pc_field d prev_page)
    /\ c = {| Variation.type := dim_key d;
              Variation.difference :=
                Qabs (Variation.pc_field d curr_page
                      - Variation.pc_field d prev_page);
              Variation.description :=
                Variation.describe (dim_key d)
                  (Qabs (Variation.pc_field d curr_page
                         - Variation.pc_field d prev_page)) |}.
Proof.
  unfold Variation.changes_of, Variation.changes_dict.
  cbn [flat_map]. rewrite app_nil_r, !in_app_iff.
  split.
  - intros [H | [H | H]];
      [ exists Confidence | exists SymbolDensity | exists LineBreaks ];
      cbn [Variation.pc_field dim_key];
      destruct (Variation.exceeds _) eqn:E; try destruct H as [<- | []];
      try contradiction; (split; [now apply exceeds_iff | reflexivity]).
  - intros [d [Hd ->]]. apply exceeds_iff in Hd.
    destruct d; cbn [Variation.pc_field dim_key] in *; rewrite Hd;
      [left | right; left | right; right]; now left.
Qed.

Lemma step_spec (prev_page curr_page : Variation.PageCharacteristics)
    (v : Variation.VariationRecord) :
  In v (Variation.step prev_page curr_page) <->
  Variation.changes_of prev_page curr_page <> []
  /\ v = {| Variation.from_page := Variation.pc_page_number prev_page;
            Variation.to_page := Variation.pc_page_number curr_page;
            Variation.changes := Variation.changes_of prev_page curr_page |}.
Proof.
  unfold Variation.step. cbn [Variation.changes].
  destruct (Variation.changes_of prev_page curr_page) as [ | c cs];
    cbn [Py.is_empty In]; split.
  - intros [].
  - intros [H _]. congruence.
  - intros [<- | []]. split; [discriminate | reflexivity].
  - intros [_ ->]. now left.
Qed.

(** Every record of the analyzer is the record of a consecutive pair with at
    least one change, and every such pair has its record. *)
Lemma analyze_page_variations_spec
    (page_characteristics : list Variation.PageCharacteristics)
    (v : Variation.VariationRecord) :
  In v (Variation.analyze_page_variations page_characteristics) <->
  exists i prev_page curr_page,
    (1 <= i)%nat
    /\ nth_error page_characteristics (i - 1) = Some prev_page
    /\ nth_error page_characteristics i = Some curr_page
    /\ Variation.changes_of prev_page curr_page <> []
    /\ v = {| Variation.from_page := Variation.pc_page_number prev_page;
              Variation.to_page := Variation.pc_page_number curr_page;
              Variation.changes := Variation.changes_of prev_page curr_page |}.
Proof.
  unfold Variation.analyze_page_variations. rewrite in_flat_map. split.
  - intros [i [Hi Hv]]. apply in_seq in Hi.
    destruct (nth_error page_characteristics (i - 1)) as [prev_page | ] eqn:Hp;
      [ | destruct Hv ].
    destruct (nth_error page_characteristics i) as [curr_page | ] eqn:Hc;
      [ | destruct Hv ].
    apply step_spec in Hv as [Hne ->].
    exists i, prev_page, curr_page. repeat split; try assumption. lia.
  - intros [i [prev_page [curr_page [Hi [Hp [Hc [Hne ->]]]]]]].
    exists i. split.
    + apply in_seq.
      assert (i < List.length page_characteristics)%nat
        by (apply nth_error_Some; congruence).
      lia.
    + rewrite Hp, Hc. apply step_spec. split; [exact Hne | reflexivity].
Qed.


(** ** Internal anomalies of a document *)

Lemma page_step_total (page_num : nat) (page_features : PageFeatureSet) :
  exists a, Internal.page_step page_num page_features = inr a.
Proof.
  unfold Internal.page_step.
  destruct (Py.is_empty page_features); [eexists; reflexivity | ].
  destruct (detect_page_anomalies_total page_features page_num) as [rs ->].
  eexists. reflexivity.
Qed.

(** [detect_internal_anomalies] returns for every document. *)
Lemma detect_internal_anomalies_total (features : DocumentFeatureSet) :
  exists a, Internal.detect_internal_anomalies features = inr a.
Proof.
  unfold Internal.detect_internal_anomalies.
  destruct (Py.is_empty features); [eexists; reflexivity | ].
  destruct (sequence_total
    (map (fun '(page_num, page_features) =>
            Internal.page_step page_num page_features)
       (Py.enumerate features))) as [per_page ->].
  - intros m Hm. apply in_map_iff in Hm as [[i f] [<- _]].
    apply page_step_total.
  - cbn [Py.bind]. destruct (_ <? _)%nat; eexists; reflexivity.
Qed.

(** * Further properties *)

(** ** Feature extraction: the records of a page *)

Section ExtractorInvariants.
Import Vision.
Variable unicode_isalnum : N -> bool.

Lemma filter_keep_all {A : Type} (xs : list A) :
  filter (fun _ => true) xs = xs.
Proof. induction xs as [ | x xs IH]; simpl; congruence. Qed.

(** What a record says about the paragraph it comes from. *)
Lemma paragraph_feature_inv (paragraph : Paragraph) (f : ParagraphFeature) :
  Extractor.paragraph_feature unicode_isalnum paragraph = inr (Some f) ->
  let ws := Py.get (words paragraph) [] in
  let ss := Extractor.symbols_of ws in
  ws <> [] /\ ss <> []
  /\ confidence f = Py.get (par_confidence paragraph) 0
  /\ word_count f = List.length ws
  /\ symbol_density f
     = inject_Z (Z.of_nat (List.length
         (filter (Extractor.non_alnum unicode_isalnum) ss))) / Py.len ws
  /\ line_breaks f = Z.of_nat (List.length (filter Extractor.has_break ss))
  /\ average_symbol_confidence f
     = Py.sum (map (fun symbol => Py.get (sym_confidence symbol) 0) ss)
       / Py.len ss.
Proof.
  unfold Extractor.paragraph_feature. cbv zeta.
  destruct (Py.get (words paragraph) []) as [ | w ws'] eqn:Hw;
    [discriminate | ].
  cbn [Py.is_empty negb].
  unfold Py.div at 1. rewrite (len_nonzero (w :: ws')) by congruence.
  cbn [Py.bind]. unfold Py.div.
  destruct (Qeq_bool _ 0) eqn:Hz; cbn [Py.bind Py.ret]; [discriminate | ].
  intros E. injection E as <-.
  cbn [confidence word_count symbol_density line_breaks average_symbol_confidence].
  rewrite !count_if_length in *.
  split; [discriminate | ].
  split.
  - intros Hs. rewrite Hs in Hz. discriminate.
  - rewrite filter_keep_all.
    repeat split.
Qed.


(** A paragraph gives a record exactly when it has words, if nothing is
    raised. *)
Lemma paragraph_feature_has_words (paragraph : Paragraph)
    (o : option ParagraphFeature) :
  Extractor.paragraph_feature unicode_isalnum paragraph = inr o ->
  if Py.is_empty (Py.get (words paragraph) []) then o = None
  else exists f, o = Some f.
Proof.
  unfold Extractor.paragraph_feature. cbv zeta.
  destruct (Py.is_empty (Py.get (words paragraph) [])).
  - intros E. now injection E as <-.
  - destruct (if negb false then _ else _) as [e | sd];
      cbn [Py.bind]; [discriminate | ].
    destruct (Py.div _ _) as [e | a]; cbn [Py.bind Py.ret]; [discriminate | ].
    intros E. injection E as <-. eexists. reflexivity.
Qed.

Lemma sequence_raises {A : Type} (ms : list (Py.raises A)) (e : Py.exn) :
  In (inl e) ms -> exists e', Py.sequence ms = inl e'.
Proof.
  induction ms as [ | m ms IH]; intros Hin; [destruct Hin | ].
  cbn [Py.sequence]. destruct m as [e0 | a]; [now exists e0 | ].
  destruct Hin as [E | Hin]; [discriminate | ].
  destruct (IH Hin) as [e' ->]. now exists e'.
Qed.

Lemma collect_features_inv (text_data : TextAnnotation)
    (page_features : list ParagraphFeature) :
  Extractor.collect_features unicode_isalnum text_data = inr page_features ->
  Forall2
    (fun paragraph f =>
       Extractor.paragraph_feature unicode_isalnum paragraph = inr (Some f))
    (filter (fun paragraph =>
               negb (Py.is_empty (Py.get (words paragraph) [])))
       (Extractor.paragraphs_of text_data))
    page_features.
Proof.
  unfold Extractor.collect_features.
  destruct (Py.sequence _) as [e | fs] eqn:Hseq; cbn [Py.bind Py.ret];
    [discriminate | ].
  intros E. injection E as <-. apply sequence_inv in Hseq.
  revert fs Hseq.
  induction (Extractor.paragraphs_of text_data) as [ | p ps IH]; intros fs H.
  - inversion H. constructor.
  - cbn [map] in H. inversion H as [ | m o ms os Hp Hrest]; subst.
    pose proof (paragraph_feature_has_words _ _ Hp) as Hw.
    cbn [filter flat_map].
    destruct (Py.is_empty (Py.get (words p) [])); cbn [negb].
    + subst o. cbn [app]. now apply IH.
    + destruct Hw as [f ->]. cbn [app]. constructor; [exact Hp | now apply IH].
Qed.

End ExtractorInvariants.

(** ** Bounds of sums and means *)

Lemma fold_Qplus_bounds (lo hi : Q) (xs : list Q) (acc : Q) :
  (forall x, In x xs -> lo <= x <= hi) ->
  acc + Py.len xs * lo <= fold_left Qplus xs acc
  /\ fold_left Qplus xs acc <= acc + Py.len xs * hi.
Proof.
  revert acc. induction xs as [ | x xs IH]; intros acc H.
  - unfold Py.len. cbn [List.length fold_left]. change (inject_Z (Z.of_nat 0)) with 0.
    split; lra.
  - cbn [fold_left].
    destruct (IH (acc + x)) as [Hlo Hhi]; [intros y Hy; apply H; now right | ].
    destruct (H x (or_introl eq_refl)) as [Hxlo Hxhi].
    assert (Hlen : Py.len (x :: xs) == Py.len xs + 1).
    { unfold Py.len. cbn [List.length]. rewrite Nat2Z.inj_succ, <- Z.add_1_r.
      now rewrite inject_Z_plus. }
    rewrite Hlen. split; lra.
Qed.

(** The mean of a non-empty list lies between any bounds of its elements. *)
Lemma np_mean_bounds (lo hi : Q) (xs : list Q) :
  xs <> [] ->
  (forall x, In x xs -> lo <= x <= hi) ->
  lo <= Py.np_mean xs <= hi.
Proof.
  intros Hne H. pose proof (len_pos xs Hne) as Hlen.
  destruct (fold_Qplus_bounds lo hi xs 0 H) as [Hlo Hhi].
  unfold Py.np_mean, Py.sum. split.
  - apply Qle_shift_div_l; [exact Hlen | ]. lra.
  - apply Qle_shift_div_r; [exact Hlen | ]. lra.
Qed.

(** ** Feature extraction: what a page gives *)

Section PageRecords.
Import Vision.
Variable unicode_isalnum : N -> bool.
Variable Image : Type.
Variable vision_post : Image -> string -> PostOutcome.

Lemma shape_response_inv (outcome : PostOutcome) :
  Extractor.shape_response unicode_isalnum outcome <> [] ->
  exists result response_data rest text_data,
    outcome = Response 200 (Some result)
    /\ responses result = Some (response_data :: rest)
    /\ fullTextAnnotation response_data = Some text_data
    /\ Extractor.collect_features unicode_isalnum text_data
       = inr (Extractor.shape_response unicode_isalnum outcome).
Proof.
  unfold Extractor.shape_response.
  destruct outcome as [ | status_code json]; [congruence | ].
  destruct (status_code =? 200)%Z eqn:Hs; cbn [negb]; [ | congruence ].
  apply Z.eqb_eq in Hs. subst status_code.
  destruct json as [result | ]; [ | congruence ].
  destruct (responses result) as [[ | response_data rest] | ] eqn:Hr;
    try congruence.
  destruct (fullTextAnnotation response_data) as [text_data | ] eqn:Ht;
    [ | congruence ].
  destruct (Extractor.collect_features unicode_isalnum text_data)
    as [e | page_features] eqn:Hc; [congruence | ].
  intros _. exists result, response_data, rest, text_data. auto.
Qed.

Lemma process_image_shape (args : Image * string * nat) :
  Extractor.process_image unicode_isalnum Image vision_post args
  = Extractor.shape_response unicode_isalnum
      (vision_post (fst (fst args)) (snd (fst args))).
Proof. destruct args as [[image api_key] page_num]. reflexivity. Qed.

(** X1.  Every record that [process_image] returns counts at least one
    word, and its symbol density and its number of line breaks are not
    negative. *)
Theorem process_image_records_well_formed (args : Image * string * nat)
    (f : ParagraphFeature) :
  In f (Extractor.process_image unicode_isalnum Image vision_post args) ->
  (1 <= word_count f)%nat /\ 0 <= symbol_density f /\ (0 <= line_breaks f)%Z.
Proof.
  rewrite process_image_shape. intros Hin.
  destruct (shape_response_inv (vision_post (fst (fst args)) (snd (fst args))))
    as [result [response_data [rest [text_data [_ [_ [_ Hc]]]]]]].
  { intros E. rewrite E in Hin. destruct Hin. }
  apply collect_features_inv in Hc.
  destruct (Forall2_In_r _ _ _ _ Hc Hin) as [paragraph [_ Hp]].
  destruct (paragraph_feature_inv unicode_isalnum _ _ Hp)
    as [Hws [_ [_ [Hwc [Hsd [Hlb _]]]]]].
  split; [ | split ].
  - rewrite Hwc. destruct (Py.get (words paragraph) []); [congruence | ].
    cbn [List.length]. lia.
  - rewrite Hsd. unfold Qdiv. apply Qmult_le_0_compat.
    + unfold Qle. simpl. lia.
    + apply Qinv_le_0_compat, len_nonneg.
  - rewrite Hlb. lia.
Qed.

(** X2.  When the confidence of every symbol of a paragraph lies in
    [[0, 1]] (a symbol without confidence counting as [0]), so does the mean
    confidence of the symbols that the record holds. *)
Theorem average_symbol_confidence_in_unit (paragraph : Paragraph)
    (f : ParagraphFeature) :
  Extractor.paragraph_feature unicode_isalnum paragraph = inr (Some f) ->
  (forall symbol,
     In symbol (Extractor.symbols_of (Py.get (words paragraph) [])) ->
     0 <= Py.get (sym_confidence symbol) 0 <= 1) ->
  0 <= average_symbol_confidence f <= 1.
Proof.
  intros Hp Hb.
  destruct (paragraph_feature_inv unicode_isalnum _ _ Hp)
    as [_ [Hss [_ [_ [_ [_ Havg]]]]]].
  rewrite Havg.
  set (ss := Extractor.symbols_of (Py.get (words paragraph) [])) in *.
  assert (Hlen : Py.len ss
                 = Py.len (map (fun symbol => Py.get (sym_confidence symbol) 0) ss))
    by (unfold Py.len; now rewrite length_map).
  rewrite Hlen. apply np_mean_bounds.
  - destruct ss; [congruence | discriminate].
  - intros x Hx. apply in_map_iff in Hx as [symbol [<- Hs]]. now apply Hb.
Qed.


Lemma paragraph_feature_returns (paragraph : Paragraph) :
  (Py.get (words paragraph) [] <> [] ->
   Extractor.symbols_of (Py.get (words paragraph) []) <> []) ->
  exists o, Extractor.paragraph_feature unicode_isalnum paragraph = inr o.
Proof.
  intros H. unfold Extractor.paragraph_feature. cbv zeta.
  destruct (Py.get (words paragraph) []) as [ | w ws'] eqn:Hw.
  - eexists. reflexivity.
  - cbn [Py.is_empty negb]. unfold Py.div at 1.
    rewrite (len_nonzero (w :: ws')) by congruence. cbn [Py.bind].
    unfold Py.div. rewrite count_if_length, filter_keep_all.
    fold (Py.len (Extractor.symbols_of (w :: ws'))).
    rewrite (len_nonzero (Extractor.symbols_of (w :: ws')))
      by (apply H; congruence).
    eexists. reflexivity.
Qed.

Lemma paragraph_feature_raises (paragraph : Paragraph) :
  Py.get (words paragraph) [] <> [] ->
  Extractor.symbols_of (Py.get (words paragraph) []) = [] ->
  Extractor.paragraph_feature unicode_isalnum paragraph
  = inl Py.ZeroDivisionError.
Proof.
  intros Hw Hs. destruct (words paragraph) as [ws | ] eqn:E;
    cbn [Py.get] in *; [ | congruence ].
  now apply (paragraph_feature_zero_symbols unicode_isalnum paragraph ws).
Qed.

(** X3.  When the service answers with an annotation, the page is all or
    nothing.  If some paragraph with words has no symbol, [process_image]
    returns no record at all.  Otherwise it returns one record for every
    paragraph with words, in the order of the annotation, and none for a
    paragraph without words. *)
Theorem process_image_all_or_nothing (image : Image) (api_key : string)
    (page_num : nat) (result : Result) (response_data : AnnotateResponse)
    (rest : list AnnotateResponse) (text_data : TextAnnotation) :
  vision_post image api_key = Response 200 (Some result) ->
  responses result = Some (response_data :: rest) ->
  fullTextAnnotation response_data = Some text_data ->
  let with_words :=
    filter (fun paragraph =>
              negb (Py.is_empty (Py.get (words paragraph) [])))
      (Extractor.paragraphs_of text_data) in
  let page_features :=
    Extractor.process_image unicode_isalnum Image vision_post
      (image, api_key, page_num) in
  (Exists (fun paragraph =>
             Extractor.symbols_of (Py.get (words paragraph) []) = [])
     with_words ->
   page_features = [])
  /\ (Forall (fun paragraph =>
                Extractor.symbols_of (Py.get (words paragraph) []) <> [])
        with_words ->
      Forall2
        (fun paragraph f =>
           Extractor.paragraph_feature unicode_isalnum paragraph
           = inr (Some f))
        with_words page_features).
Proof.
  intros Hpost Hr Ht with_words page_features.
  subst with_words page_features.
  unfold Extractor.process_image, Extractor.shape_response.
  rewrite Hpost. cbn [Z.eqb Pos.eqb negb]. rewrite Hr, Ht.
  split.
  - intros Hex. apply Exists_exists in Hex as [p [Hp Hs]].
    apply filter_In in Hp as [Hp Hw].
    assert (Hne : Py.get (words p) [] <> [])
      by (destruct (Py.get (words p) []); [discriminate | congruence]).
    unfold Extractor.collect_features.
    destruct (sequence_raises
                (map (Extractor.paragraph_feature unicode_isalnum)
                   (Extractor.paragraphs_of text_data))
                Py.ZeroDivisionError) as [e ->]; [ | reflexivity ].
    apply in_map_iff. exists p. split; [ | exact Hp ].
    now apply paragraph_feature_raises.
  - intros Hall.
    destruct (Extractor.collect_features unicode_isalnum text_data)
      as [e | out] eqn:Hc.
    + exfalso. unfold Extractor.collect_features in Hc.
      destruct (sequence_total
                  (map (Extractor.paragraph_feature unicode_isalnum)
                     (Extractor.paragraphs_of text_data))) as [l Hl].
      * intros m Hm. apply in_map_iff in Hm as [p [<- Hp]].
        apply paragraph_feature_returns. intros Hne.
        rewrite Forall_forall in Hall. apply Hall.
        apply filter_In. split; [exact Hp | ].
        destruct (Py.get (words p) []); [congruence | reflexivity].
      * rewrite Hl in Hc. discriminate.
    + now apply collect_features_inv.
Qed.

End PageRecords.

Lemma process_image_records_well_formed_witness :
  exists f,
    In f (Extractor.process_image Examples.ascii_only Vision.PostOutcome
            Examples.replay (Examples.written_page, "key"%string, 0%nat))
    /\ (1 <= word_count f)%nat /\ 0 <= symbol_density f
    /\ (0 <= line_breaks f)%Z.
Proof.
  eexists. split; [left; reflexivity | ].
  apply (process_image_records_well_formed Examples.ascii_only
           Vision.PostOutcome Examples.replay
           (Examples.written_page, "key"%string, 0%nat)).
  left. reflexivity.
Defined.

Lemma average_symbol_confidence_in_unit_witness :
  exists f,
    Extractor.paragraph_feature Examples.ascii_only Examples.par_a_comma
    = inr (Some f)
    /\ 0 <= average_symbol_confidence f <= 1.
Proof.
  eexists. split; [reflexivity | ].
  apply (average_symbol_confidence_in_unit Examples.ascii_only
           Examples.par_a_comma _ eq_refl).
  intros symbol [<- | [<- | []]]; simpl; split; discriminate.
Defined.

Lemma process_image_all_or_nothing_witness :
  Extractor.process_image Examples.ascii_only Vision.PostOutcome
    Examples.replay
    (Examples.answer [Examples.par_a_comma; Examples.par_no_symbols],
     "key"%string, 0%nat)
  = []
  /\ Forall2
       (fun paragraph f =>
          Extractor.paragraph_feature Examples.ascii_only paragraph
          = inr (Some f))
       [Examples.par_a_comma]
       (Extractor.process_image Examples.ascii_only Vision.PostOutcome
          Examples.replay (Examples.written_page, "key"%string, 0%nat)).
Proof.
  pose (td ps := Vision.mkTextAnnotation
                   (Some [Vision.mkPage (Some [Vision.mkBlock (Some ps)])])).
  split.
  - refine (proj1 (process_image_all_or_nothing Examples.ascii_only
                     Vision.PostOutcome Examples.replay
                     (Examples.answer
                        [Examples.par_a_comma; Examples.par_no_symbols])
                     "key" 0
                     (Vision.mkResult
                        (Some [Vision.mkAnnotateResponse
                                 (Some (td [Examples.par_a_comma;
                                            Examples.par_no_symbols]))]))
                     (Vision.mkAnnotateResponse
                        (Some (td [Examples.par_a_comma;
                                   Examples.par_no_symbols])))
                     [] (td [Examples.par_a_comma; Examples.par_no_symbols])
                     eq_refl eq_refl eq_refl) _).
    right. left. reflexivity.
  - refine (proj2 (process_image_all_or_nothing Examples.ascii_only
                     Vision.PostOutcome Examples.replay
                     Examples.written_page "key" 0
                     (Vision.mkResult
                        (Some [Vision.mkAnnotateResponse
                                 (Some (td [Examples.par_a_comma]))]))
                     (Vision.mkAnnotateResponse
                        (Some (td [Examples.par_a_comma])))
                     [] (td [Examples.par_a_comma])
                     eq_refl eq_refl eq_refl) _).
    constructor; [discriminate | constructor].
Defined.

(** ** Feature extraction: the order of the pages *)

Section CompletionOrder.
Variable unicode_isalnum : N -> bool.
Variable Image : Type.
Variable vision_post : Image -> string -> Vision.PostOutcome.

(** X4.  Whatever the order in which [as_completed] yields the tasks, the
    result holds the record list of every page once: it is as long as the
    list of images, and a rearrangement of the record lists of the pages. *)
Theorem extract_returns_every_page_once (images : list Image)
    (api_key : string) (completion : list nat) :
  Extractor.completion_order (List.length images) completion ->
  let features :=
    Extractor.extract_handwriting_features unicode_isalnum Image vision_post
      images api_key completion in
  List.length features = List.length images
  /\ Permutation features
       (map (fun '(i, image) =>
               Extractor.process_image unicode_isalnum Image vision_post
                 (image, api_key, i))
          (Py.enumerate images)).
Proof.
  intros Hperm features.
  pose proof (extract_permutation unicode_isalnum Image vision_post
                images api_key completion Hperm) as H.
  fold features in H. split.
  - rewrite (Permutation_length H). apply length_map.
  - unfold Py.enumerate. rewrite futures_in_page_order. exact H.
Qed.

End CompletionOrder.

Lemma extract_returns_every_page_once_witness :
  let features :=
    Extractor.extract_handwriting_features Examples.ascii_only
      Vision.PostOutcome Examples.replay
      [Examples.written_page; Examples.blank_page] "key" [1; 0]%nat in
  Extractor.completion_order 2 [1; 0]%nat
  /\ List.length features = 2%nat
  /\ Permutation features
       [ Extractor.process_image Examples.ascii_only Vision.PostOutcome
           Examples.replay (Examples.written_page, "key"%string, 0%nat);
         Extractor.process_image Examples.ascii_only Vision.PostOutcome
           Examples.replay (Examples.blank_page, "key"%string, 1%nat) ].
Proof.
  cbv zeta.
  assert (H : Extractor.completion_order 2 [1; 0]%nat)
    by (unfold Extractor.completion_order; simpl; apply perm_swap).
  destruct (extract_returns_every_page_once Examples.ascii_only
              Vision.PostOutcome Examples.replay
              [Examples.written_page; Examples.blank_page] "key" [1; 0]%nat H)
    as [Hlen Hall].
  split; [exact H | split; [exact Hlen | exact Hall] ].
Defined.

(** ** Similarity scorer: further properties *)

Lemma np_clip_unit_id (x : Q) : 0 <= x <= 1 -> Py.np_clip x 0 1 == x.
Proof.
  intros [H0 H1]. unfold Py.np_clip.
  rewrite (Q.max_l x 0 H0). now apply Q.min_l.
Qed.

Lemma is_empty_false_iff {A : Type} (xs : list A) :
  Py.is_empty xs = false <-> xs <> [].
Proof. destruct xs; simpl; split; intros H; congruence. Qed.

Lemma concat_written (features : DocumentFeatureSet) :
  features <> [] -> hd [] features <> [] -> concat features <> [].
Proof.
  destruct features as [ | page rest]; [congruence | ].
  cbn [hd concat]. destruct page; [congruence | discriminate].
Qed.

(** What the scorer returns when both documents have a first page with a
    paragraph. *)
Lemma compare_open_guard (features1 features2 : DocumentFeatureSet) :
  features1 <> [] -> features2 <> [] ->
  hd [] features1 <> [] -> hd [] features2 <> [] ->
  Scorer.compare_handwriting_features features1 features2
  = (Py.np_clip
       (Scorer.w_confidence
        * Scorer.dim_sim confidence (concat features1) (concat features2)
        + Scorer.w_symbol_density
          * Scorer.dim_sim symbol_density (concat features1) (concat features2)
        + Scorer.w_line_breaks
          * Scorer.dim_sim Scorer.line_breaks_q
              (concat features1) (concat features2)
        + Scorer.w_avg_confidence
          * Scorer.dim_sim average_symbol_confidence
              (concat features1) (concat features2)) 0 1,
     [ ("confidence_similarity"%string,
        Py.np_clip
          (Scorer.dim_sim confidence (concat features1) (concat features2)) 0 1);
       ("symbol_density_similarity"%string,
        Py.np_clip
          (Scorer.dim_sim symbol_density (concat features1) (concat features2))
          0 1);
       ("line_break_similarity"%string,
        Py.np_clip
          (Scorer.dim_sim Scorer.line_breaks_q
             (concat features1) (concat features2)) 0 1);
       ("average_confidence_similarity"%string,
        Py.np_clip
          (Scorer.dim_sim average_symbol_confidence
             (concat features1) (concat features2)) 0 1) ]).
Proof.
  intros H1 H2 Hp1 Hp2.
  pose proof (concat_written _ H1 Hp1) as Hc1.
  pose proof (concat_written _ H2 Hp2) as Hc2.
  unfold Scorer.compare_handwriting_features.
  apply is_empty_false_iff in H1, H2, Hp1, Hp2, Hc1, Hc2.
  rewrite H1, H2, Hp1, Hp2. cbn [orb]. cbv zeta.
  rewrite Hc1, Hc2. reflexivity.
Qed.

Lemma compare_closed_guard (features1 features2 : DocumentFeatureSet) :
  Py.is_empty features1 || Py.is_empty features2
  || Py.is_empty (hd [] features1) || Py.is_empty (hd [] features2) = true ->
  Scorer.compare_handwriting_features features1 features2 = (0, []).
Proof.
  intros H. unfold Scorer.compare_handwriting_features. now rewrite H.
Qed.

(** X5.  The sub-score mapping is empty when a document has no page or an
    empty first page, and holds the four keys in their order otherwise: the
    second test of the scorer, on the flattened lists, never decides. *)
Theorem scorer_sub_score_keys (features1 features2 : DocumentFeatureSet) :
  map fst (snd (Scorer.compare_handwriting_features features1 features2))
  = if Py.is_empty features1 || Py.is_empty features2
       || Py.is_empty (hd [] features1) || Py.is_empty (hd [] features2)
    then []
    else [ "confidence_similarity"%string;
           "symbol_density_similarity"%string;
           "line_break_similarity"%string;
           "average_confidence_similarity"%string ].
Proof.
  destruct (Py.is_empty features1 || Py.is_empty features2
            || Py.is_empty (hd [] features1) || Py.is_empty (hd [] features2))
    eqn:Hg.
  - now rewrite (compare_closed_guard _ _ Hg).
  - apply orb_false_iff in Hg as [Hg Hp2]. apply orb_false_iff in Hg as [Hg Hp1].
    apply orb_false_iff in Hg as [H1 H2].
    apply is_empty_false_iff in H1, H2, Hp1, Hp2.
    now rewrite (compare_open_guard _ _ H1 H2 Hp1 Hp2).
Qed.

(** X8.  When no mean differs by more than [1] between the two documents,
    the composite score is the weighted sum of the four sub-scores that the
    mapping reports, and no clamp changes a value. *)
Theorem scorer_composite_of_sub_scores (features1 features2 : DocumentFeatureSet)
    (s1 s2 s3 s4 : Q) :
  (forall k, In k [confidence; symbol_density; Scorer.line_breaks_q;
                   average_symbol_confidence] ->
     Qabs (Py.np_mean (map k (concat features1))
           - Py.np_mean (map k (concat features2))) <= 1) ->
  snd (Scorer.compare_handwriting_features features1 features2)
  = [ ("confidence_similarity"%string, s1);
      ("symbol_density_similarity"%string, s2);
      ("line_break_similarity"%string, s3);
      ("average_confidence_similarity"%string, s4) ] ->
  fst (Scorer.compare_handwriting_features features1 features2)
  == (3 # 10) * s1 + (3 # 10) * s2 + (2 # 10) * s3 + (2 # 10) * s4.
Proof.
  intros Hclose Hscores.
  destruct (Py.is_empty features1 || Py.is_empty features2
            || Py.is_empty (hd [] features1) || Py.is_empty (hd [] features2))
    eqn:Hg.
  { rewrite (compare_closed_guard _ _ Hg) in Hscores. discriminate. }
  apply orb_false_iff in Hg as [Hg Hp2]. apply orb_false_iff in Hg as [Hg Hp1].
  apply orb_false_iff in Hg as [H1 H2].
  apply is_empty_false_iff in H1, H2, Hp1, Hp2.
  rewrite (compare_open_guard _ _ H1 H2 Hp1 Hp2) in *. cbn [fst snd] in *.
  injection Hscores as E1 E2 E3 E4.
  assert (Hunit : forall k, In k [confidence; symbol_density;
                                  Scorer.line_breaks_q;
                                  average_symbol_confidence] ->
            0 <= Scorer.dim_sim k (concat features1) (concat features2) <= 1).
  { intros k Hk. split; [ | apply dim_sim_le_1 ].
    unfold Scorer.dim_sim. specialize (Hclose k Hk). lra. }
  pose proof (Hunit confidence ltac:(simpl; tauto)) as Uc.
  pose proof (Hunit symbol_density ltac:(simpl; tauto)) as Us.
  pose proof (Hunit Scorer.line_breaks_q ltac:(simpl; tauto)) as Ul.
  pose proof (Hunit average_symbol_confidence ltac:(simpl; tauto)) as Ua.
  rewrite <- E1, <- E2, <- E3, <- E4.
  rewrite (np_clip_unit_id _ Uc), (np_clip_unit_id _ Us),
          (np_clip_unit_id _ Ul), (np_clip_unit_id _ Ua).
  apply np_clip_unit_id.
  unfold Scorer.w_confidence, Scorer.w_symbol_density, Scorer.w_line_breaks,
    Scorer.w_avg_confidence.
  split; lra.
Qed.

Lemma scorer_composite_of_sub_scores_witness :
  exists s1 s2 s3 s4,
    snd (Scorer.compare_handwriting_features
           Examples.doc_few_breaks Examples.doc_few_breaks)
    = [ ("confidence_similarity"%string, s1);
        ("symbol_density_similarity"%string, s2);
        ("line_break_similarity"%string, s3);
        ("average_confidence_similarity"%string, s4) ]
    /\ fst (Scorer.compare_handwriting_features
              Examples.doc_few_breaks Examples.doc_few_breaks)
       == (3 # 10) * s1 + (3 # 10) * s2 + (2 # 10) * s3 + (2 # 10) * s4.
Proof.
  do 4 eexists. split; [reflexivity | ].
  apply scorer_composite_of_sub_scores; [ | reflexivity ].
  intros k [<- | [<- | [<- | [<- | []]]]]; vm_compute; discriminate.
Defined.

(** ** Anomaly detector: the records of a page *)

Lemma sequence_map_inr {A B : Type} (g : A -> Py.raises B) (h : A -> B)
    (xs : list A) :
  (forall x, In x xs -> g x = inr (h x)) ->
  Py.sequence (map g xs) = inr (map h xs).
Proof.
  induction xs as [ | x xs IH]; intros H; [reflexivity | ].
  cbn [map Py.sequence]. rewrite (H x (or_introl eq_refl)). cbn [Py.bind].
  rewrite IH by (intros y Hy; apply H; now right). reflexivity.
Qed.

Lemma check_dim_entry_of (v m : Q) (sd : R) :
  (sd = 0%R -> v == m) ->
  Anomaly.check_dim v m sd = inr (Flagging.entry_of v m sd).
Proof.
  intros Hflat. unfold Anomaly.check_dim, Flagging.entry_of, Anomaly.threshold.
  destruct (Rgt_dec _ _) as [Hgt | Hle]; [ | reflexivity ].
  unfold Py.np_div. destruct (Req_dec_T sd 0) as [H0 | Hne]; [ | reflexivity ].
  exfalso. rewrite (abs_diff_zero v m (Hflat H0)), H0 in Hgt. lra.
Qed.

Lemma check_dim_entry_on (features : PageFeatureSet) (d : Dim)
    (feature : ParagraphFeature) :
  In feature features ->
  Anomaly.check_dim (Anomaly.field d feature)
    (Py.np_mean (map (Anomaly.field d) features))
    (Py.np_std (map (Anomaly.field d) features))
  = inr (Flagging.entry_on features d feature).
Proof.
  intros Hin. apply check_dim_entry_of. intros H0.
  apply (np_std_zero _ H0). now apply in_map.
Qed.

(** The detector returns what the pure reading appends, paragraph by
    paragraph. *)
Lemma detect_page_anomalies_eq (features : PageFeatureSet) (page_num : nat) :
  Anomaly.detect_page_anomalies features page_num
  = inr (flat_map
           (fun '(i, feature) => Flagging.records_of features page_num i feature)
           (Py.enumerate features)).
Proof.
  unfold Anomaly.detect_page_anomalies. cbv zeta.
  rewrite (sequence_map_inr _
             (fun '(i, feature) =>
                Flagging.records_of features page_num i feature)).
  - cbn [Py.bind Py.ret]. now rewrite flat_map_concat_map.
  - intros [i feature] Hin. apply in_enumerate, nth_error_In in Hin.
    unfold Anomaly.check_paragraph.
    rewrite !(check_dim_entry_on features _ feature Hin). cbn [Py.bind].
    unfold Flagging.records_of.
    destruct (Anomaly.nonempty_anomaly _ _ _); reflexivity.
Qed.

Lemma records_of_inv (features : PageFeatureSet) (page_num i : nat)
    (feature : ParagraphFeature) (r : Anomaly.AnomalyRecord) :
  In r (Flagging.records_of features page_num i feature) ->
  Anomaly.paragraph_index r = i
  /\ Anomaly.page_number r = (page_num + 1)%nat
  /\ forall d, Anomaly.cited d r = Flagging.entry_on features d feature.
Proof.
  unfold Flagging.records_of.
  destruct (Anomaly.nonempty_anomaly _ _ _); [ | intros [] ].
  intros [<- | []]. split; [reflexivity | split; [reflexivity | ] ].
  intros [ | | ]; reflexivity.
Qed.

Lemma records_of_sorted_from (features : PageFeatureSet) (page_num : nat)
    (xs : list ParagraphFeature) (start : nat) :
  let rs :=
    flat_map (fun '(i, g) => Flagging.records_of features page_num i g)
      (combine (seq start (List.length xs)) xs) in
  StronglySorted lt (map Anomaly.paragraph_index rs)
  /\ Forall (fun r => (start <= Anomaly.paragraph_index r
                       < start + List.length xs)%nat
                      /\ Anomaly.page_number r = (page_num + 1)%nat) rs.
Proof.
  revert start. induction xs as [ | x xs IH]; intros start; cbv zeta.
  - split; constructor.
  - cbn [List.length seq combine flat_map].
    destruct (IH (S start)) as [Hsorted Hbound]. cbv zeta in Hsorted, Hbound.
    set (rest := flat_map _ (combine (seq (S start) (List.length xs)) xs)) in *.
    assert (Hrest : Forall (fun r => (start <= Anomaly.paragraph_index r
                                      < start + S (List.length xs))%nat
                                     /\ Anomaly.page_number r
                                        = (page_num + 1)%nat) rest).
    { eapply Forall_impl; [ | exact Hbound ]. cbv beta. intros r [Hr Hp].
      split; [lia | exact Hp]. }
    assert (Hhead : Flagging.records_of features page_num start x = []
                    \/ exists r,
                         Flagging.records_of features page_num start x = [r]
                         /\ Anomaly.paragraph_index r = start
                         /\ Anomaly.page_number r = (page_num + 1)%nat).
    { unfold Flagging.records_of.
      destruct (Anomaly.nonempty_anomaly _ _ _); [right | now left].
      eexists. split; [reflexivity | split; reflexivity]. }
    destruct Hhead as [-> | [r [-> [Hi Hp]]]]; cbn [app map].
    + split; [exact Hsorted | exact Hrest].
    + split.
      * constructor; [exact Hsorted | ].
        rewrite Hi. apply Forall_map.
        eapply Forall_impl; [ | exact Hbound ]. cbv beta. intros r' [Hr _]. lia.
      * constructor; [ | exact Hrest ].
        rewrite Hi, Hp. split; [lia | reflexivity].
Qed.

(** X10.  The records of a page come in the order of its paragraphs, at most
    one for a paragraph: their paragraph indices increase strictly, stay
    below the number of paragraphs, and every record carries the page number
    [page_num + 1]. *)
Theorem detector_records_in_paragraph_order (features : PageFeatureSet)
    (page_num : nat) (records : list Anomaly.AnomalyRecord) :
  Anomaly.detect_page_anomalies features page_num = inr records ->
  StronglySorted lt (map Anomaly.paragraph_index records)
  /\ Forall (fun r => (Anomaly.paragraph_index r < List.length features)%nat
                      /\ Anomaly.page_number r = (page_num + 1)%nat)
       records.
Proof.
  rewrite detect_page_anomalies_eq. intros E. injection E as <-.
  destruct (records_of_sorted_from features page_num features 0)
    as [Hsorted Hbound].
  split; [exact Hsorted | ].
  eapply Forall_impl; [ | exact Hbound ]. cbv beta. intros r [Hr Hp].
  split; [lia | exact Hp].
Qed.

Lemma detector_records_in_paragraph_order_witness :
  exists records,
    Anomaly.detect_page_anomalies Examples.six_paragraphs 0 = inr records
    /\ StronglySorted lt (map Anomaly.paragraph_index records)
    /\ Forall (fun r => (Anomaly.paragraph_index r < 6)%nat
                        /\ Anomaly.page_number r = 1%nat) records.
Proof.
  eexists. split; [exact six_paragraphs_anomaly | ].
  exact (detector_records_in_paragraph_order Examples.six_paragraphs 0 _
           six_paragraphs_anomaly).
Defined.

(** ** Page-variation analyzer: further properties *)

(** X13.  The analyzer does not tell a rise from a fall: the changes from a
    page to another are the changes from the other to the one. *)
Theorem changes_of_symmetric (prev_page curr_page : Variation.PageCharacteristics) :
  Variation.changes_of prev_page curr_page
  = Variation.changes_of curr_page prev_page.
Proof.
  unfold Variation.changes_of, Variation.changes_dict.
  now rewrite (Qabs_minus_swap (Variation.pc_confidence curr_page)),
    (Qabs_minus_swap (Variation.pc_symbol_density curr_page)),
    (Qabs_minus_swap (Variation.pc_line_breaks curr_page)).
Qed.


(** X15.  Every record of the analyzer names each dimension at most once:
    it has one, two or three changes, their types are distinct keys of the
    three dimensions, and every recorded difference exceeds 0.15. *)
Theorem analyzer_record_shape
    (page_characteristics : list Variation.PageCharacteristics)
    (v : Variation.VariationRecord) :
  In v (Variation.analyze_page_variations page_characteristics) ->
  (1 <= List.length (Variation.changes v) <= 3)%nat
  /\ NoDup (map Variation.type (Variation.changes v))
  /\ Forall (fun c => (exists d, Variation.type c = dim_key d)
                      /\ 15 # 100 < Variation.difference c)
       (Variation.changes v).
Proof.
  intros Hin.
  apply analyze_page_variations_spec in Hin
    as [i [prev_page [curr_page [_ [_ [_ [Hne ->]]]]]]].
  cbn [Variation.changes].
  split; [ | split ].
  - split.
    + destruct (Variation.changes_of prev_page curr_page);
        [congruence | cbn [List.length]; lia].
    + unfold Variation.changes_of, Variation.changes_dict. cbn [flat_map].
      repeat destruct (Variation.exceeds _); cbn [app List.length]; lia.
  - unfold Variation.changes_of, Variation.changes_dict. cbn [flat_map].
    repeat destruct (Variation.exceeds _); cbn [app map Variation.type];
      repeat constructor; cbn [In]; intuition discriminate.
  - apply Forall_forall. intros c Hc.
    apply changes_of_spec in Hc as [d [Hd ->]].
    cbn [Variation.type Variation.difference].
    split; [now exists d | exact Hd].
Qed.

Lemma analyzer_record_shape_witness :
  let v := {| Variation.from_page := 1;
              Variation.to_page := 2;
              Variation.changes :=
                Variation.changes_of Examples.page_010 Examples.page_030 |} in
  In v (Variation.analyze_page_variations
          [Examples.page_010; Examples.page_030])
  /\ (1 <= List.length (Variation.changes v) <= 3)%nat
  /\ NoDup (map Variation.type (Variation.changes v)).
Proof.
  cbv zeta.
  assert (Hin : In {| Variation.from_page := 1;
                      Variation.to_page := 2;
                      Variation.changes :=
                        Variation.changes_of Examples.page_010
                          Examples.page_030 |}
                  (Variation.analyze_page_variations
                     [Examples.page_010; Examples.page_030]))
    by (left; reflexivity).
  destruct (analyzer_record_shape _ _ Hin) as [Hlen [Hnodup _]].
  split; [exact Hin | split; [exact Hlen | exact Hnodup] ].
Defined.

(** ** Internal anomalies of a document: further properties *)

Lemma page_step_eq (page_num : nat) (page_features : PageFeatureSet) :
  Internal.page_step page_num page_features
  = inr (flat_map
           (fun '(i, feature) =>
              Flagging.records_of page_features page_num i feature)
           (Py.enumerate page_features),
         if Py.is_empty page_features then []
         else [Aggregator.page_summary page_num page_features]).
Proof.
  unfold Internal.page_step.
  destruct page_features as [ | f fs]; [reflexivity | ].
  cbn [Py.is_empty]. now rewrite detect_page_anomalies_eq.
Qed.

Lemma summaries_concat (pages : list (nat * PageFeatureSet)) :
  concat
    (map (fun '(page_num, page_features) =>
            if Py.is_empty page_features then []
            else [Aggregator.page_summary page_num page_features]) pages)
  = map (fun '(page_num, page_features) =>
           Aggregator.page_summary page_num page_features)
      (filter (fun '(_, page_features) => negb (Py.is_empty page_features))
         pages).
Proof.
  induction pages as [ | [page_num page_features] pages IH]; [reflexivity | ].
  cbn [map concat filter]. rewrite IH.
  destruct (Py.is_empty page_features); reflexivity.
Qed.

(** [detect_internal_anomalies] returns the records of every page, in the
    order of the pages, and the variations of the summaries of the pages
    that have a paragraph. *)
Lemma detect_internal_anomalies_eq (features : DocumentFeatureSet) :
  Internal.detect_internal_anomalies features
  = inr (flat_map
           (fun '(page_num, page_features) =>
              flat_map
                (fun '(i, feature) =>
                   Flagging.records_of page_features page_num i feature)
                (Py.enumerate page_features))
           (Py.enumerate features),
         if (1 <? List.length (Aggregator.summaries features))%nat
         then Variation.analyze_page_variations (Aggregator.summaries features)
         else []).
Proof.
  unfold Internal.detect_internal_anomalies.
  destruct features as [ | page pages]; [reflexivity | ].
  cbn [Py.is_empty].
  rewrite (sequence_map_inr _
             (fun '(page_num, page_features) =>
                (flat_map
                   (fun '(i, feature) =>
                      Flagging.records_of page_features page_num i feature)
                   (Py.enumerate page_features),
                 if Py.is_empty page_features then []
                 else [Aggregator.page_summary page_num page_features])))
    by (intros [page_num page_features] _; apply page_step_eq).
  cbn [Py.bind]. cbv zeta.
  set (xs := Py.enumerate (page :: pages)).
  assert (Hfst : concat (map fst (map
                   (fun '(page_num, page_features) =>
                      (flat_map
                         (fun '(i, feature) =>
                            Flagging.records_of page_features page_num i feature)
                         (Py.enumerate page_features),
                       if Py.is_empty page_features then []
                       else [Aggregator.page_summary page_num page_features]))
                   xs))
                 = flat_map
                     (fun '(page_num, page_features) =>
                        flat_map
                          (fun '(i, feature) =>
                             Flagging.records_of page_features page_num i
                               feature)
                          (Py.enumerate page_features)) xs).
  { rewrite map_map, flat_map_concat_map. f_equal. apply map_ext.
    now intros [page_num page_features]. }
  assert (Hsnd : concat (map snd (map
                   (fun '(page_num, page_features) =>
                      (flat_map
                         (fun '(i, feature) =>
                            Flagging.records_of page_features page_num i feature)
                         (Py.enumerate page_features),
                       if Py.is_empty page_features then []
                       else [Aggregator.page_summary page_num page_features]))
                   xs))
                 = Aggregator.summaries (page :: pages)).
  { rewrite map_map. unfold Aggregator.summaries, Aggregator.written_pages.
    fold xs. rewrite <- summaries_concat. f_equal. apply map_ext.
    now intros [page_num page_features]. }
  rewrite Hfst, Hsnd.
  destruct (1 <? _)%nat; reflexivity.
Qed.

Lemma records_of_cited (features : PageFeatureSet) (page_num i : nat)
    (feature : ParagraphFeature) (r : Anomaly.AnomalyRecord) :
  In r (Flagging.records_of features page_num i feature) ->
  exists d, Anomaly.cited d r <> None.
Proof.
  unfold Flagging.records_of.
  destruct (Anomaly.nonempty_anomaly _ _ _) eqn:E; [ | intros [] ].
  intros [<- | []].
  destruct (Flagging.entry_on features Confidence feature) eqn:Ec;
    [exists Confidence; simpl; discriminate | ].
  destruct (Flagging.entry_on features SymbolDensity feature) eqn:Es;
    [exists SymbolDensity; simpl; discriminate | ].
  destruct (Flagging.entry_on features LineBreaks feature) eqn:El;
    [exists LineBreaks; simpl; discriminate | ].
  discriminate.
Qed.

(** X16.  Every anomaly record of a document points to a paragraph that
    exists: its page number is the position of a page in the list, counted
    from one, its paragraph index is the position of a paragraph on that
    page, counted from zero, and it cites at least one dimension. *)
Theorem internal_anomalies_point_to_paragraphs (features : DocumentFeatureSet)
    (anomalies : list Anomaly.AnomalyRecord)
    (variations : list Variation.VariationRecord) (r : Anomaly.AnomalyRecord) :
  Internal.detect_internal_anomalies features = inr (anomalies, variations) ->
  In r anomalies ->
  (1 <= Anomaly.page_number r)%nat
  /\ (exists page_features feature,
        nth_error features (Anomaly.page_number r - 1) = Some page_features
        /\ nth_error page_features (Anomaly.paragraph_index r) = Some feature)
  /\ exists d, Anomaly.cited d r <> None.
Proof.
  rewrite detect_internal_anomalies_eq. intros E Hr. injection E as <- _.
  apply in_flat_map in Hr as [[page_num page_features] [Hpage Hr]].
  apply in_flat_map in Hr as [[i feature] [Hpar Hr]].
  apply in_enumerate in Hpage, Hpar.
  destruct (records_of_inv _ _ _ _ _ Hr) as [Hi [Hp _]].
  split; [lia | split ].
  - exists page_features, feature. rewrite Hp, Hi.
    replace (page_num + 1 - 1)%nat with page_num by lia. now split.
  - now apply records_of_cited in Hr.
Qed.

Lemma written_pages_length_from (pages : list PageFeatureSet) (start : nat) :
  List.length
    (filter (fun '(_, page_features) => negb (Py.is_empty page_features))
       (combine (seq start (List.length pages)) pages))
  = List.length (filter (fun page_features => negb (Py.is_empty page_features))
                   pages).
Proof.
  revert start. induction pages as [ | page pages IH]; intros start;
    [reflexivity | ].
  cbn [List.length seq combine filter].
  destruct (Py.is_empty page); cbn [negb List.length]; now rewrite IH.
Qed.

Lemma summaries_length (features : DocumentFeatureSet) :
  List.length (Aggregator.summaries features)
  = List.length (filter (fun page_features => negb (Py.is_empty page_features))
                   features).
Proof.
  unfold Aggregator.summaries, Aggregator.written_pages, Py.enumerate.
  rewrite length_map. apply written_pages_length_from.
Qed.

(** X17.  A document with at most one page that has a paragraph gets no
    variation record, however many blank pages it has. *)
Theorem internal_no_variation_below_two_pages (features : DocumentFeatureSet) :
  (List.length (filter (fun page_features => negb (Py.is_empty page_features))
                  features) <= 1)%nat ->
  exists anomalies,
    Internal.detect_internal_anomalies features = inr (anomalies, []).
Proof.
  intros Hlen. rewrite detect_internal_anomalies_eq.
  rewrite summaries_length.
  destruct (1 <? _)%nat eqn:E; [ | eexists; reflexivity ].
  apply Nat.ltb_lt in E. lia.
Qed.

(** Two neighbours of a filtered list are separated, in the list itself, by
    elements that the filter drops. *)
Lemma filter_first {A : Type} (p : A -> bool) (l : list A) (v : A) :
  nth_error (filter p l) 0 = Some v ->
  exists l2 l3,
    l = l2 ++ v :: l3 /\ Forall (fun x => p x = false) l2 /\ p v = true.
Proof.
  induction l as [ | x l IH]; intros H; [discriminate | ].
  cbn [filter] in H. destruct (p x) eqn:Hx.
  - injection H as <-. exists [], l. repeat split; [constructor | exact Hx].
  - destruct (IH H) as [l2 [l3 [-> [Hall Hv]]]].
    exists (x :: l2), l3. repeat split; [now constructor | exact Hv].
Qed.

Lemma filter_neighbours {A : Type} (p : A -> bool) (l : list A) (j : nat)
    (u v : A) :
  nth_error (filter p l) j = Some u ->
  nth_error (filter p l) (S j) = Some v ->
  exists l1 l2 l3,
    l = l1 ++ u :: l2 ++ v :: l3
    /\ Forall (fun x => p x = false) l2 /\ p u = true /\ p v = true.
Proof.
  revert j. induction l as [ | x l IH]; intros j Hu Hv;
    [destruct j; discriminate | ].
  cbn [filter] in Hu, Hv. destruct (p x) eqn:Hx.
  - destruct j as [ | j]; cbn [nth_error] in Hu, Hv.
    + injection Hu as <-.
      destruct (filter_first p l v Hv) as [l2 [l3 [-> [Hall Hpv]]]].
      exists [], l2, l3. repeat split; assumption.
    + destruct (IH j Hu Hv) as [l1 [l2 [l3 [-> [Hall [Hpu Hpv]]]]]].
      exists (x :: l1), l2, l3. repeat split; assumption.
  - destruct (IH j Hu Hv) as [l1 [l2 [l3 [-> [Hall [Hpu Hpv]]]]]].
    exists (x :: l1), l2, l3. repeat split; assumption.
Qed.

Lemma nth_error_enumerate_from {A : Type} (xs : list A) (start k : nat) :
  nth_error (combine (seq start (List.length xs)) xs) k
  = option_map (fun x => ((start + k)%nat, x)) (nth_error xs k).
Proof.
  revert start k. induction xs as [ | x xs IH]; intros start k.
  - destruct k; reflexivity.
  - cbn [List.length seq combine]. destruct k as [ | k]; cbn [nth_error].
    + cbn [option_map]. now rewrite Nat.add_0_r.
    + rewrite IH. destruct (nth_error xs k); cbn [option_map]; [ | reflexivity ].
      do 2 f_equal. lia.
Qed.

Lemma nth_error_enumerate {A : Type} (xs : list A) (k : nat) :
  nth_error (Py.enumerate xs) k = option_map (fun x => (k, x)) (nth_error xs k).
Proof. exact (nth_error_enumerate_from xs 0 k). Qed.

(** X18.  A variation record of a document joins two pages that have
    paragraphs, the earlier one first, and every page between the two is
    blank: blank pages are stepped over, not compared. *)
Theorem internal_variations_step_over_blank_pages
    (features : DocumentFeatureSet)
    (anomalies : list Anomaly.AnomalyRecord)
    (variations : list Variation.VariationRecord)
    (v : Variation.VariationRecord) :
  Internal.detect_internal_anomalies features = inr (anomalies, variations) ->
  In v variations ->
  (1 <= Variation.from_page v < Variation.to_page v)%nat
  /\ (Variation.to_page v <= List.length features)%nat
  /\ (exists page_features,
        nth_error features (Variation.from_page v - 1) = Some page_features
        /\ page_features <> [])
  /\ (exists page_features,
        nth_error features (Variation.to_page v - 1) = Some page_features
        /\ page_features <> [])
  /\ forall k,
       (Variation.from_page v < k < Variation.to_page v)%nat ->
       nth_error features (k - 1) = Some [].
Proof.
  rewrite detect_internal_anomalies_eq. intros E Hv. injection E as _ <-.
  destruct (1 <? _)%nat; [ | destruct Hv ].
  apply analyze_page_variations_spec in Hv
    as [j [prev_page [curr_page [Hj [Hprev [Hcurr [_ ->]]]]]]].
  cbn [Variation.from_page Variation.to_page].
  unfold Aggregator.summaries in Hprev, Hcurr.
  rewrite nth_error_map in Hprev, Hcurr.
  destruct (nth_error (Aggregator.written_pages features) (j - 1))
    as [[a pa] | ] eqn:Ha; [ | discriminate ].
  destruct (nth_error (Aggregator.written_pages features) j)
    as [[b pb] | ] eqn:Hb; [ | discriminate ].
  injection Hprev as <-. injection Hcurr as <-.
  cbn [Aggregator.page_summary Variation.pc_page_number].
  replace j with (S (j - 1)) in Hb by lia.
  unfold Aggregator.written_pages in Ha, Hb.
  destruct (filter_neighbours _ _ _ _ _ Ha Hb)
    as [l1 [l2 [l3 [Hsplit [Hblank [Hpa Hpb]]]]]].
  assert (Hat : forall k, nth_error (Py.enumerate features) k
                          = option_map (fun x => (k, x)) (nth_error features k))
    by apply nth_error_enumerate.
  assert (Ea : nth_error (Py.enumerate features) (List.length l1) = Some (a, pa)).
  { rewrite Hsplit, nth_error_app2, Nat.sub_diag by lia. reflexivity. }
  assert (Eb : nth_error (Py.enumerate features)
                 (List.length l1 + S (List.length l2)) = Some (b, pb)).
  { rewrite Hsplit, nth_error_app2 by lia.
    replace (List.length l1 + S (List.length l2) - List.length l1)%nat
      with (S (List.length l2)) by lia.
    cbn [nth_error]. rewrite nth_error_app2, Nat.sub_diag by lia. reflexivity. }
  rewrite Hat in Ea, Eb.
  destruct (nth_error features (List.length l1)) as [pa' | ] eqn:Hfa;
    [ | discriminate ].
  destruct (nth_error features (List.length l1 + S (List.length l2)))
    as [pb' | ] eqn:Hfb; [ | discriminate ].
  cbn [option_map] in Ea, Eb.
  injection Ea as Ea1 Ea2. injection Eb as Eb1 Eb2. subst a b pa' pb'.
  assert (Hlt : (List.length l1 + S (List.length l2)
                 < List.length features)%nat)
    by (apply nth_error_Some; congruence).
  split; [lia | split; [lia | split; [ | split ] ] ].
  - exists pa. replace (List.length l1 + 1 - 1)%nat with (List.length l1) by lia.
    split; [exact Hfa | ]. destruct pa; [discriminate | congruence].
  - exists pb.
    replace (List.length l1 + S (List.length l2) + 1 - 1)%nat
      with (List.length l1 + S (List.length l2))%nat by lia.
    split; [exact Hfb | ]. destruct pb; [discriminate | congruence].
  - intros k Hk.
    assert (Ek : nth_error (Py.enumerate features) (k - 1)
                 = nth_error l2 (k - 1 - S (List.length l1))).
    { rewrite Hsplit, nth_error_app2 by lia.
      replace (k - 1 - List.length l1)%nat
        with (S (k - 1 - S (List.length l1))) by lia.
      cbn [nth_error]. rewrite nth_error_app1 by lia. reflexivity. }
    destruct (nth_error l2 (k - 1 - S (List.length l1))) as [[i page] | ] eqn:El;
      [ | apply nth_error_None in El; lia ].
    rewrite Hat in Ek.
    destruct (nth_error features (k - 1)) as [page' | ]; [ | discriminate ].
    cbn [option_map] in Ek. injection Ek as <- <-.
    apply nth_error_In in El. rewrite Forall_forall in Hblank.
    specialize (Hblank _ El). cbv beta iota in Hblank.
    destruct page'; [reflexivity | discriminate].
Qed.

Lemma StronglySorted_app {A : Type} (R : A -> A -> Prop) (l1 l2 : list A) :
  StronglySorted R l1 -> StronglySorted R l2 ->
  (forall x y, In x l1 -> In y l2 -> R x y) ->
  StronglySorted R (l1 ++ l2).
Proof.
  intros H1 H2 H12. induction H1 as [ | x l1 Hs IH Hx]; [exact H2 | ].
  cbn [app]. constructor.
  - apply IH. intros a b Ha Hb. apply H12; [now right | exact Hb].
  - apply Forall_app. split; [exact Hx | ].
    apply Forall_forall. intros y Hy. apply H12; [now left | exact Hy].
Qed.

Lemma page_block_sorted (page_num : nat) (rs : list Anomaly.AnomalyRecord) :
  StronglySorted lt (map Anomaly.paragraph_index rs) ->
  Forall (fun r => Anomaly.page_number r = page_num) rs ->
  StronglySorted
    (fun r r' =>
       (Anomaly.page_number r < Anomaly.page_number r')%nat
       \/ (Anomaly.page_number r = Anomaly.page_number r'
           /\ (Anomaly.paragraph_index r < Anomaly.paragraph_index r')%nat))
    rs.
Proof.
  induction rs as [ | r rs IH]; intros Hs Hp; [constructor | ].
  cbn [map] in Hs. inversion Hs as [ | ? ? Hs' Hr]; subst.
  inversion Hp as [ | ? ? Hpr Hp']; subst.
  constructor; [now apply IH | ].
  rewrite Forall_map in Hr. rewrite Forall_forall in Hr, Hp' |- *.
  intros r' Hr'. right. split; [now rewrite (Hp' r' Hr') | now apply Hr].
Qed.

Lemma document_records_sorted_from (pages : list PageFeatureSet) (start : nat) :
  let rs :=
    flat_map
      (fun '(page_num, page_features) =>
         flat_map
           (fun '(i, feature) =>
              Flagging.records_of page_features page_num i feature)
           (Py.enumerate page_features))
      (combine (seq start (List.length pages)) pages) in
  StronglySorted
    (fun r r' =>
       (Anomaly.page_number r < Anomaly.page_number r')%nat
       \/ (Anomaly.page_number r = Anomaly.page_number r'
           /\ (Anomaly.paragraph_index r < Anomaly.paragraph_index r')%nat))
    rs
  /\ Forall (fun r => (start + 1 <= Anomaly.page_number r)%nat) rs.
Proof.
  revert start. induction pages as [ | page pages IH]; intros start; cbv zeta.
  - split; constructor.
  - cbn [List.length seq combine flat_map].
    destruct (IH (S start)) as [Hsorted Hbound]. cbv zeta in Hsorted, Hbound.
    destruct (records_of_sorted_from page start page 0) as [Hpage Hnum].
    cbv zeta in Hpage, Hnum. fold (Py.enumerate page) in Hpage, Hnum.
    assert (Hsame : Forall (fun r => Anomaly.page_number r = (start + 1)%nat)
                      (flat_map
                         (fun '(i, feature) =>
                            Flagging.records_of page start i feature)
                         (Py.enumerate page))).
    { eapply Forall_impl; [ | exact Hnum ]. cbv beta. now intros r [_ Hp]. }
    split.
    + apply StronglySorted_app.
      * now apply (page_block_sorted (start + 1)).
      * exact Hsorted.
      * intros x y Hx Hy. left.
        rewrite Forall_forall in Hsame, Hbound.
        rewrite (Hsame x Hx). specialize (Hbound y Hy). lia.
    + apply Forall_app. split.
      * eapply Forall_impl; [ | exact Hsame ]. cbv beta. intros r Hr. lia.
      * eapply Forall_impl; [ | exact Hbound ]. cbv beta. intros r Hr. lia.
Qed.

(** X19.  The anomaly records of a document come in page order and, within
    a page, in paragraph order, without repetition. *)
Theorem internal_anomalies_in_document_order (features : DocumentFeatureSet)
    (anomalies : list Anomaly.AnomalyRecord)
    (variations : list Variation.VariationRecord) :
  Internal.detect_internal_anomalies features = inr (anomalies, variations) ->
  StronglySorted
    (fun r r' =>
       (Anomaly.page_number r < Anomaly.page_number r')%nat
       \/ (Anomaly.page_number r = Anomaly.page_number r'
           /\ (Anomaly.paragraph_index r < Anomaly.paragraph_index r')%nat))
    anomalies.
Proof.
  rewrite detect_internal_anomalies_eq. intros E. injection E as <- _.
  exact (proj1 (document_records_sorted_from features 0)).
Qed.

(** The records of the one-page document of six paragraphs. *)
Lemma six_paragraphs_document :
  exists r,
    Anomaly.paragraph_index r = 5%nat /\ Anomaly.page_number r = 1%nat
    /\ Internal.detect_internal_anomalies [Examples.six_paragraphs]
       = inr ([r], []).
Proof.
  eexists. split; [ | split ]; [ | | rewrite detect_internal_anomalies_eq ].
  3: { assert (H6 := six_paragraphs_anomaly).
       rewrite detect_page_anomalies_eq in H6.
       apply (f_equal (fun x => match x with
                                | inr l => l
                                | inl _ => []
                                end)) in H6.
       cbv beta iota in H6.
       change (Py.enumerate [Examples.six_paragraphs])
         with [(0%nat, Examples.six_paragraphs)].
       cbn [flat_map]. rewrite H6. reflexivity. }
  - reflexivity.
  - reflexivity.
Qed.

Lemma internal_anomalies_point_to_paragraphs_witness :
  exists r,
    Internal.detect_internal_anomalies [Examples.six_paragraphs]
    = inr ([r], [])
    /\ (1 <= Anomaly.page_number r)%nat
    /\ exists page_features feature,
         nth_error [Examples.six_paragraphs] (Anomaly.page_number r - 1)
         = Some page_features
         /\ nth_error page_features (Anomaly.paragraph_index r) = Some feature.
Proof.
  destruct six_paragraphs_document as [r [_ [_ Hdoc]]].
  exists r. split; [exact Hdoc | ].
  destruct (internal_anomalies_point_to_paragraphs _ _ _ r Hdoc
              (or_introl eq_refl)) as [Hone [Hpar _]].
  split; [exact Hone | exact Hpar].
Defined.

Lemma internal_anomalies_in_document_order_witness :
  exists r,
    Internal.detect_internal_anomalies [Examples.six_paragraphs]
    = inr ([r], [])
    /\ StronglySorted
         (fun r r' =>
            (Anomaly.page_number r < Anomaly.page_number r')%nat
            \/ (Anomaly.page_number r = Anomaly.page_number r'
                /\ (Anomaly.paragraph_index r
                    < Anomaly.paragraph_index r')%nat))
         [r].
Proof.
  destruct six_paragraphs_document as [r [_ [_ Hdoc]]].
  exists r. split; [exact Hdoc | ].
  exact (internal_anomalies_in_document_order _ _ _ Hdoc).
Defined.

Lemma internal_no_variation_below_two_pages_witness :
  exists anomalies,
    Internal.detect_internal_anomalies [[]; Examples.one_paragraph; []]
    = inr (anomalies, []).
Proof.
  apply internal_no_variation_below_two_pages. simpl. lia.
Defined.

Lemma internal_variations_step_over_blank_pages_witness :
  let features :=
    [ [Examples.feature (1 # 2) (10 # 100) 3 1]; [];
      [Examples.feature (1 # 2) (30 # 100) 3 1] ] in
  exists anomalies v,
    Internal.detect_internal_anomalies features = inr (anomalies, [v])
    /\ Variation.from_page v = 1%nat /\ Variation.to_page v = 3%nat
    /\ forall k,
         (Variation.from_page v < k < Variation.to_page v)%nat ->
         nth_error features (k - 1) = Some [].
Proof.
  cbv zeta.
  assert (Hdoc : exists anomalies v,
            Internal.detect_internal_anomalies
              [ [Examples.feature (1 # 2) (10 # 100) 3 1]; [];
                [Examples.feature (1 # 2) (30 # 100) 3 1] ]
            = inr (anomalies, [v])
            /\ Variation.from_page v = 1%nat /\ Variation.to_page v = 3%nat).
  { eexists. eexists. rewrite detect_internal_anomalies_eq.
    split; [reflexivity | split; reflexivity]. }
  destruct Hdoc as [anomalies [v [Hdoc [Hfrom Hto]]]].
  exists anomalies, v.
  split; [exact Hdoc | split; [exact Hfrom | split; [exact Hto | ] ] ].
  exact (proj2 (proj2 (proj2 (proj2
           (internal_variations_step_over_blank_pages _ _ _ v Hdoc
              (or_introl eq_refl)))))).
Defined.

(** ** The comparison of two documents *)

Lemma compare_fst_unit (features1 features2 : DocumentFeatureSet) :
  0 <= fst (Scorer.compare_handwriting_features features1 features2) <= 1.
Proof.
  unfold Scorer.compare_handwriting_features.
  destruct (_ || _ || _ || _); [split; discriminate | ].
  cbv zeta. destruct (_ || _); [split; discriminate | ].
  cbn [fst]. apply np_clip_unit.
Qed.

Lemma load_after_save (cache : Pipeline.Cache) (cache_key : string)
    (data : Pipeline.Response) :
  Pipeline.load_from_cache (Pipeline.save_to_cache cache cache_key data)
    cache_key
  = Some data.
Proof.
  unfold Pipeline.load_from_cache, Pipeline.save_to_cache.
  now rewrite String.eqb_refl.
Qed.

Section PipelineFacts.
Variable unicode_isalnum : N -> bool.
Variable Image : Type.
Variable vision_post : Image -> string -> Vision.PostOutcome.
Variable convert_from_path : string -> option (list Image).
Variable read_bytes : string -> option string.
Variable md5_hexdigest : string -> string.
Variable environ_api_key : option string.

(** X20.  The comparison fails exactly when one of the two documents cannot
    be rasterized or read: no computation on the features raises.  A failed
    comparison leaves the cache as it was. *)
Theorem compute_fails_only_on_the_files (cache : Pipeline.Cache)
    (pdf_path1 pdf_path2 : string) (completion1 completion2 : list nat) :
  ((exists response,
      fst (Pipeline.compute_handwriting_similarity unicode_isalnum Image
            vision_post convert_from_path read_bytes md5_hexdigest
            environ_api_key cache pdf_path1 pdf_path2 completion1 completion2)
      = Pipeline.Returned response)
   <-> convert_from_path pdf_path1 <> None
       /\ convert_from_path pdf_path2 <> None
       /\ read_bytes pdf_path1 <> None
       /\ read_bytes pdf_path2 <> None)
  /\ forall cause,
       fst (Pipeline.compute_handwriting_similarity unicode_isalnum Image
            vision_post convert_from_path read_bytes md5_hexdigest
            environ_api_key cache pdf_path1 pdf_path2 completion1 completion2)
       = Pipeline.WrappedError cause ->
       snd (Pipeline.compute_handwriting_similarity unicode_isalnum Image
            vision_post convert_from_path read_bytes md5_hexdigest
            environ_api_key cache pdf_path1 pdf_path2 completion1 completion2) = cache.
Proof.
  unfold Pipeline.compute_handwriting_similarity, Pipeline.get_cache_key.
  destruct (convert_from_path pdf_path1) as [images1 | ];
    [ | split; [split; [intros [r H]; discriminate | tauto] | reflexivity] ].
  destruct (convert_from_path pdf_path2) as [images2 | ];
    [ | split; [split; [intros [r H]; discriminate | tauto] | reflexivity] ].
  destruct (read_bytes pdf_path1) as [bytes1 | ]; cbn [option_map];
    [ | split; [split; [intros [r H]; discriminate | tauto] | reflexivity] ].
  destruct (read_bytes pdf_path2) as [bytes2 | ]; cbn [option_map];
    [ | split; [split; [intros [r H]; discriminate | tauto] | reflexivity] ].
  cbv zeta.
  destruct (Pipeline.load_from_cache cache _) as [cached | ].
  - cbn [fst snd]. split; [ | discriminate ].
    split; [intros _; repeat split; discriminate | intros _; now eexists].
  - rewrite !detect_internal_anomalies_eq.
    destruct (Scorer.compare_handwriting_features _ _) as [s scores].
    cbn [fst snd]. split; [ | discriminate ].
    split; [intros _; repeat split; discriminate | intros _; now eexists].
Qed.

(** X21.  On a cache miss the similarity of the response is the composite
    score of the scorer (the second clamp changes nothing), the sub-scores
    are the scorer's, the response is stored under the key of the pair, and
    no other entry of the cache changes. *)
Theorem compute_miss_stores_the_scores (cache : Pipeline.Cache)
    (pdf_path1 pdf_path2 : string) (completion1 completion2 : list nat)
    (images1 images2 : list Image) (bytes1 bytes2 : string) :
  convert_from_path pdf_path1 = Some images1 ->
  convert_from_path pdf_path2 = Some images2 ->
  read_bytes pdf_path1 = Some bytes1 ->
  read_bytes pdf_path2 = Some bytes2 ->
  let cache_key :=
    md5_hexdigest (md5_hexdigest bytes1 ++ md5_hexdigest bytes2)%string in
  Pipeline.load_from_cache cache cache_key = None ->
  let features1 :=
    Extractor.extract_handwriting_features unicode_isalnum Image vision_post
      images1 (Pipeline.api_key environ_api_key) completion1 in
  let features2 :=
    Extractor.extract_handwriting_features unicode_isalnum Image vision_post
      images2 (Pipeline.api_key environ_api_key) completion2 in
  exists response,
    Pipeline.compute_handwriting_similarity unicode_isalnum Image vision_post
      convert_from_path read_bytes md5_hexdigest environ_api_key
      cache pdf_path1 pdf_path2 completion1 completion2
    = (Pipeline.Returned response,
       Pipeline.save_to_cache cache cache_key response)
    /\ Pipeline.similarity response
       = fst (Scorer.compare_handwriting_features features1 features2)
    /\ Pipeline.feature_scores response
       = snd (Scorer.compare_handwriting_features features1 features2)
    /\ Internal.detect_internal_anomalies features1
       = inr (Pipeline.anomalies1 response, Pipeline.variations1 response)
    /\ Internal.detect_internal_anomalies features2
       = inr (Pipeline.anomalies2 response, Pipeline.variations2 response)
    /\ forall k,
         k <> cache_key ->
         Pipeline.save_to_cache cache cache_key response k = cache k.
Proof.
  intros Hc1 Hc2 Hr1 Hr2 cache_key Hmiss features1 features2.
  unfold Pipeline.compute_handwriting_similarity, Pipeline.get_cache_key.
  rewrite Hc1, Hc2, Hr1, Hr2. cbn [option_map]. cbv zeta.
  fold cache_key. rewrite Hmiss. fold features1 features2.
  rewrite !detect_internal_anomalies_eq.
  pose proof (compare_fst_unit features1 features2) as [H0 H1].
  destruct (Scorer.compare_handwriting_features features1 features2)
    as [s scores].
  cbn [fst snd] in *.
  eexists. split; [reflexivity | ].
  cbn [Pipeline.similarity Pipeline.feature_scores Pipeline.anomalies1
       Pipeline.anomalies2 Pipeline.variations1 Pipeline.variations2].
  split; [now apply np_clip_id | ].
  split; [reflexivity | split; [reflexivity | split; [reflexivity | ] ] ].
  intros k Hk. unfold Pipeline.save_to_cache.
  destruct (String.eqb k cache_key) eqn:E; [ | reflexivity ].
  apply String.eqb_eq in E. contradiction.
Qed.

End PipelineFacts.

(** X22.  A comparison that returned can be repeated on the cache it left:
    the second call returns the same response and leaves the cache as it
    is, whatever the recognition service answers then and in whatever order
    its tasks finish; it reads the answer from the cache. *)
Theorem compute_twice_reads_the_cache
    (unicode_isalnum unicode_isalnum' : N -> bool) (Image : Type)
    (vision_post vision_post' : Image -> string -> Vision.PostOutcome)
    (convert_from_path : string -> option (list Image))
    (read_bytes : string -> option string)
    (md5_hexdigest : string -> string)
    (environ_api_key environ_api_key' : option string)
    (cache cache' : Pipeline.Cache) (pdf_path1 pdf_path2 : string)
    (completion1 completion2 completion1' completion2' : list nat)
    (response : Pipeline.Response) :
  Pipeline.compute_handwriting_similarity unicode_isalnum Image vision_post
    convert_from_path read_bytes md5_hexdigest environ_api_key
    cache pdf_path1 pdf_path2 completion1 completion2
  = (Pipeline.Returned response, cache') ->
  Pipeline.compute_handwriting_similarity unicode_isalnum' Image vision_post'
    convert_from_path read_bytes md5_hexdigest environ_api_key'
    cache' pdf_path1 pdf_path2 completion1' completion2'
  = (Pipeline.Returned response, cache').
Proof.
  unfold Pipeline.compute_handwriting_similarity, Pipeline.get_cache_key.
  destruct (convert_from_path pdf_path1) as [images1 | ]; [ | discriminate ].
  destruct (convert_from_path pdf_path2) as [images2 | ]; [ | discriminate ].
  destruct (read_bytes pdf_path1) as [bytes1 | ]; [ | discriminate ].
  destruct (read_bytes pdf_path2) as [bytes2 | ]; [ | discriminate ].
  cbn [option_map]. cbv zeta.
  set (cache_key := md5_hexdigest (md5_hexdigest bytes1 ++ md5_hexdigest bytes2)%string).
  destruct (Pipeline.load_from_cache cache cache_key) as [cached | ] eqn:Hload.
  - intros E. injection E as <- <-. now rewrite Hload.
  - rewrite !detect_internal_anomalies_eq.
    destruct (Scorer.compare_handwriting_features _ _) as [s scores].
    intros E. injection E as <- <-.
    now rewrite load_after_save.
Qed.

Lemma compute_miss_stores_the_scores_witness :
  exists response,
    Pipeline.compute_handwriting_similarity Examples.ascii_only
      Vision.PostOutcome Examples.replay
      (fun _ => Some [Examples.written_page]) (fun path => Some path)
      (fun bytes => bytes) None
      (fun _ => None) "a.pdf" "b.pdf" [0%nat] [0%nat]
    = (Pipeline.Returned response,
       Pipeline.save_to_cache (fun _ => None) "a.pdfb.pdf" response)
    /\ Pipeline.similarity response == 1.
Proof.
  destruct (compute_miss_stores_the_scores Examples.ascii_only
              Vision.PostOutcome Examples.replay
              (fun _ => Some [Examples.written_page]) (fun path => Some path)
              (fun bytes => bytes) None
              (fun _ => None) "a.pdf" "b.pdf" [0%nat] [0%nat]
              [Examples.written_page] [Examples.written_page] "a.pdf" "b.pdf"
              eq_refl eq_refl eq_refl eq_refl eq_refl)
    as [response [Hrun [Hsim _]]].
  exists response. split; [exact Hrun | ].
  rewrite Hsim. vm_compute. reflexivity.
Defined.

Lemma compute_twice_reads_the_cache_witness :
  let cached :=
    {| Pipeline.similarity := 1;
       Pipeline.feature_scores := [];
       Pipeline.anomalies1 := [];
       Pipeline.anomalies2 := [];
       Pipeline.variations1 := [];
       Pipeline.variations2 := [] |} in
  let cache : Pipeline.Cache :=
    fun k => if String.eqb k "a.pdfb.pdf" then Some cached else None in
  Pipeline.compute_handwriting_similarity Examples.ascii_only
    Vision.PostOutcome (fun _ _ => Vision.RequestFailed)
    (fun _ => Some [Examples.written_page]) (fun path => Some path)
    (fun bytes => bytes) (Some "key"%string)
    cache "a.pdf" "b.pdf" [] []
  = (Pipeline.Returned cached, cache).
Proof.
  intros cached cache.
  apply (compute_twice_reads_the_cache Examples.ascii_only Examples.ascii_only
           Vision.PostOutcome Examples.replay (fun _ _ => Vision.RequestFailed)
           (fun _ => Some [Examples.written_page]) (fun path => Some path)
           (fun bytes => bytes) None (Some "key"%string)
           cache cache "a.pdf" "b.pdf" [0%nat] [0%nat] [] []).
  reflexivity.
Defined.

(** * Properties of the program on doubles *)

(** ** Comparisons of doubles *)


(** ** Similarity scorer *)




(** ** Anomaly detector *)

(** C4 on a failing input.  On a page of three paragraphs with the same
    confidence [0.1 * 2 ** -500] the computed mean differs from that
    confidence in its last bit, the squares of the three differences
    underflow to [0.0] and the standard deviation of the confidences is
    [0.0].  Each difference still exceeds [2.0 * 0.0], so the detector
    cites the confidence of each of the three paragraphs, with the
    deviation [inf] that the division by [0.0] gives. *)
Theorem detector_cites_confidence_without_spread :
  let xs := map (Doubles.field Confidence) Doubles.faint_page in
  let entry :=
    Some {| Doubles.value := Doubles.faint;
            Doubles.mean := Doubles.np_mean xs;
            Doubles.deviation := infinity |} in
  let cites i :=
    {| Doubles.an_confidence := entry;
       Doubles.an_symbol_density := None;
       Doubles.an_line_breaks := None;
       Doubles.paragraph_index := i;
       Doubles.page_number := 1 |} in
  Doubles.np_std xs = 0%float
  /\ Doubles.detect_page_anomalies Doubles.faint_page 0
     = [cites 0%nat; cites 1%nat; cites 2%nat].
Proof. split; vm_compute; reflexivity. Qed.

(** ** Page-variation analyzer *)

(** The rounding of [format_1f] picks an integer nearest to its argument,
    and the even one of two. *)
Lemma round_half_even_nearest_even (x : Q) :
  Doubles.nearest_even x (Variation.round_half_even x).
Proof.
  unfold Doubles.nearest_even, Variation.round_half_even.
  pose proof (Qfloor_le x) as Hlo. pose proof (Qlt_floor x) as Hhi.
  rewrite inject_Z_plus in Hhi. change (inject_Z 1) with 1 in Hhi.
  destruct (Qcompare (x - inject_Z (Qfloor x)) (1 # 2)) eqn:E.
  - apply Qeq_alt in E.
    destruct (Z.even (Qfloor x)) eqn:Heven.
    + split; [ | intros _; exact Heven ].
      rewrite Qabs_pos by lra. lra.
    + split.
      * rewrite inject_Z_plus. change (inject_Z 1) with 1.
        rewrite Qabs_neg by lra. lra.
      * intros _. rewrite Z.add_1_r, Z.even_succ, <- Z.negb_even, Heven.
        reflexivity.
  - apply Qlt_alt in E. rewrite Qabs_pos by lra. split; [lra | ].
    intros H. lra.
  - apply Qgt_alt in E. rewrite inject_Z_plus. change (inject_Z 1) with 1.
    rewrite Qabs_neg by lra. split; [lra | ]. intros H. lra.
Qed.

(** [format_1f] shows its argument rounded to one decimal. *)
Lemma format_1f_one_decimal (x : float) :
  Doubles.one_decimal x (Doubles.format_1f x).
Proof.
  unfold Doubles.one_decimal, Doubles.format_1f.
  destruct (Prim2SF x) as [s | s | | s m e]; try reflexivity.
  exists (Variation.round_half_even (10 * (inject_Z (Z.pos m) * 2 ^ e))).
  split; [apply round_half_even_nearest_even | reflexivity].
Qed.

Lemma double_describe_title (d : Dim) (v : float) :
  Doubles.describe (dim_key d) v
  = (Variation.dim_title d ++ " changed by "
     ++ Doubles.format_1f (v * 100)%float ++ "%")%string.
Proof.
  unfold Doubles.describe.
  assert (H : Variation.title (Variation.replace "_" " " (dim_key d))
              = Variation.dim_title d) by (destruct d; reflexivity).
  now rewrite H.
Qed.

(** The entry that the analyzer writes for a dimension. *)
Lemma double_changes_of_spec (prev_page curr_page : Doubles.PageCharacteristics)
    (c : Doubles.Change) :
  In c (Doubles.changes_of prev_page curr_page) <->
  exists d,
    let diff := PrimFloat.abs (Doubles.pc_field d curr_page
                               - Doubles.pc_field d prev_page)%float in
    PrimFloat.ltb Doubles.variation_threshold diff = true
    /\ c = {| Doubles.type := dim_key d;
              Doubles.difference := diff;
              Doubles.description := Doubles.describe (dim_key d) diff |}.
Proof.
  unfold Doubles.changes_of, Doubles.changes_dict, Doubles.exceeds.
  cbn [flat_map]. rewrite app_nil_r, !in_app_iff.
  split.
  - intros [H | [H | H]];
      [ exists Confidence | exists SymbolDensity | exists LineBreaks ];
      cbn [Doubles.pc_field dim_key];
      destruct (PrimFloat.ltb _ _) eqn:E; try destruct H as [<- | []];
      try contradiction; (split; [first [reflexivity | exact E] | reflexivity]).
  - intros [d [Hd ->]].
    destruct d; cbn [Doubles.pc_field dim_key] in *; rewrite Hd;
      [left | right; left | right; right]; now left.
Qed.

Lemma double_step_spec (prev_page curr_page : Doubles.PageCharacteristics)
    (v : Doubles.VariationRecord) :
  In v (Doubles.step prev_page curr_page) <->
  Doubles.changes_of prev_page curr_page <> []
  /\ v = {| Doubles.from_page := Doubles.pc_page_number prev_page;
            Doubles.to_page := Doubles.pc_page_number curr_page;
            Doubles.changes := Doubles.changes_of prev_page curr_page |}.
Proof.
  unfold Doubles.step. cbn [Doubles.changes].
  destruct (Doubles.changes_of prev_page curr_page) as [ | c cs];
    cbn [Py.is_empty In]; split.
  - intros [].
  - intros [H _]. congruence.
  - intros [<- | []]. split; [discriminate | reflexivity].
  - intros [_ ->]. now left.
Qed.

(** Every record of the analyzer is the record of a consecutive pair with at
    least one change, and every such pair has its record. *)
Lemma double_analyze_page_variations_spec
    (page_characteristics : list Doubles.PageCharacteristics)
    (v : Doubles.VariationRecord) :
  In v (Doubles.analyze_page_variations page_characteristics) <->
  exists i prev_page curr_page,
    (1 <= i)%nat
    /\ nth_error page_characteristics (i - 1) = Some prev_page
    /\ nth_error page_characteristics i = Some curr_page
    /\ Doubles.changes_of prev_page curr_page <> []
    /\ v = {| Doubles.from_page := Doubles.pc_page_number prev_page;
              Doubles.to_page := Doubles.pc_page_number curr_page;
              Doubles.changes := Doubles.changes_of prev_page curr_page |}.
Proof.
  unfold Doubles.analyze_page_variations. rewrite in_flat_map. split.
  - intros [i [Hi Hv]]. apply in_seq in Hi.
    destruct (nth_error page_characteristics (i - 1)) as [prev_page | ] eqn:Hp;
      [ | destruct Hv ].
    destruct (nth_error page_characteristics i) as [curr_page | ] eqn:Hc;
      [ | destruct Hv ].
    apply double_step_spec in Hv as [Hne ->].
    exists i, prev_page, curr_page. repeat split; try assumption. lia.
  - intros [i [prev_page [curr_page [Hi [Hp [Hc [Hne ->]]]]]]].
    exists i. split.
    + apply in_seq.
      assert (i < List.length page_characteristics)%nat
        by (apply nth_error_Some; congruence).
      lia.
    + rewrite Hp, Hc. apply double_step_spec. split; [exact Hne | reflexivity].
Qed.

Lemma double_changes_nonempty_iff
    (prev_page curr_page : Doubles.PageCharacteristics) :
  Doubles.changes_of prev_page curr_page <> [] <->
  exists d,
    PrimFloat.ltb Doubles.variation_threshold
      (PrimFloat.abs (Doubles.pc_field d curr_page
                      - Doubles.pc_field d prev_page)%float) = true.
Proof.
  split.
  - intros Hne.
    destruct (Doubles.changes_of prev_page curr_page) as [ | c cs] eqn:E;
      [congruence | ].
    assert (Hc : In c (Doubles.changes_of prev_page curr_page))
      by (rewrite E; now left).
    apply double_changes_of_spec in Hc as [d [Hd _]]. now exists d.
  - intros [d Hd] E.
    assert (Hc : In {| Doubles.type := dim_key d;
              Doubles.difference :=
                PrimFloat.abs (Doubles.pc_field d curr_page
                               - Doubles.pc_field d prev_page)%float;
              Doubles.description :=
                Doubles.describe (dim_key d)
                  (PrimFloat.abs (Doubles.pc_field d curr_page
                                  - Doubles.pc_field d prev_page)%float) |}
              (Doubles.changes_of prev_page curr_page))
      by (apply double_changes_of_spec; now exists d).
    rewrite E in Hc. destruct Hc.
Qed.

(** C9.  For every consecutive pair of page summaries and every dimension,
    with [diff] the absolute difference of the two means as the program
    computes it: the analyzer writes a change entry for the dimension
    exactly when [diff > 0.15]; the entry is the only one of the dimension
    and holds the dimension, [diff] and the description
    [<Dimension Title> changed by <text>%], where [text] shows the product
    [diff * 100] rounded to one decimal (the nearest multiple of one tenth,
    the even one on a tie); the record of the pair is in the result exactly
    when some dimension exceeds the threshold. *)
Theorem analyzer_change_entries_rounded
    (page_characteristics : list Doubles.PageCharacteristics) (i : nat)
    (prev_page curr_page : Doubles.PageCharacteristics) (d : Dim) :
  (1 <= i)%nat ->
  nth_error page_characteristics (i - 1) = Some prev_page ->
  nth_error page_characteristics i = Some curr_page ->
  let diff_of d' :=
    PrimFloat.abs (Doubles.pc_field d' curr_page
                   - Doubles.pc_field d' prev_page)%float in
  let variation :=
    {| Doubles.from_page := Doubles.pc_page_number prev_page;
       Doubles.to_page := Doubles.pc_page_number curr_page;
       Doubles.changes := Doubles.changes_of prev_page curr_page |} in
  ((exists c, In c (Doubles.changes_of prev_page curr_page)
              /\ Doubles.type c = dim_key d)
   <-> PrimFloat.ltb 0.15%float (diff_of d) = true)
  /\ (forall c c', In c (Doubles.changes_of prev_page curr_page) ->
        In c' (Doubles.changes_of prev_page curr_page) ->
        Doubles.type c = dim_key d -> Doubles.type c' = dim_key d -> c = c')
  /\ (forall c, In c (Doubles.changes_of prev_page curr_page) ->
        Doubles.type c = dim_key d ->
        Doubles.difference c = diff_of d
        /\ exists text,
             Doubles.description c
             = (Variation.dim_title d ++ " changed by " ++ text ++ "%")%string
             /\ Doubles.one_decimal (diff_of d * 100)%float text)
  /\ (In variation (Doubles.analyze_page_variations page_characteristics)
      <-> exists d', PrimFloat.ltb 0.15%float (diff_of d') = true).
Proof.
  intros Hi Hp Hc diff_of variation. subst diff_of variation. cbv beta.
  change 0.15%float with Doubles.variation_threshold.
  split; [ | split; [ | split ] ].
  - split.
    + intros [c [Hin Hty]].
      apply double_changes_of_spec in Hin as [d' [Hd' ->]].
      cbn [Doubles.type] in Hty. apply dim_key_inj in Hty. now subst d'.
    + intros Hd. eexists. split.
      * apply double_changes_of_spec. exists d. split; [exact Hd | reflexivity].
      * reflexivity.
  - intros c c' Hin Hin' Hty Hty'.
    apply double_changes_of_spec in Hin as [d1 [_ ->]].
    apply double_changes_of_spec in Hin' as [d2 [_ ->]].
    cbn [Doubles.type] in Hty, Hty'.
    apply dim_key_inj in Hty. apply dim_key_inj in Hty'. now subst d1 d2.
  - intros c Hin Hty.
    apply double_changes_of_spec in Hin as [d' [_ ->]].
    cbn [Doubles.type] in Hty. apply dim_key_inj in Hty. subst d'.
    cbn [Doubles.difference Doubles.description]. split; [reflexivity | ].
    eexists. split; [apply double_describe_title | apply format_1f_one_decimal].
  - rewrite <- double_changes_nonempty_iff, double_analyze_page_variations_spec.
    split.
    + intros [j [p [q [_ [_ [_ [Hne E]]]]]]].
      injection E as _ _ Hch. now rewrite Hch.
    + intros Hne. exists i, prev_page, curr_page. repeat split; assumption.
Qed.


(** A mean symbol density that goes from 0.10 to 0.30 gives the entry
    [Symbol Density changed by 20.0%] and a record from page 1 to page 2; a
    mean confidence that goes from 0 to 0.2075 gives
    [Confidence changed by 20.8%], the product [0.2075 * 100] being the
    double [20.75]. *)
Lemma analyzer_change_entries_rounded_witness :
  (exists c, In c (Doubles.changes_of Doubles.page_010 Doubles.page_030)
             /\ Doubles.type c = "symbol_density"%string)
  /\ In {| Doubles.from_page := 1;
           Doubles.to_page := 2;
           Doubles.changes :=
             [ {| Doubles.type := "symbol_density";
                  Doubles.difference := PrimFloat.abs (0.30 - 0.10)%float;
                  Doubles.description := "Symbol Density changed by 20.0%" |} ]
        |}
        (Doubles.analyze_page_variations [Doubles.page_010; Doubles.page_030])
  /\ Doubles.changes_of Doubles.page_00000 Doubles.page_02075
     = [ {| Doubles.type := "confidence";
            Doubles.difference := 0.2075%float;
            Doubles.description := "Confidence changed by 20.8%" |} ].
Proof.
  destruct (analyzer_change_entries_rounded
              [Doubles.page_010; Doubles.page_030] 1
              Doubles.page_010 Doubles.page_030 SymbolDensity
              (le_n 1) eq_refl eq_refl) as [Hentry [_ [_ Hrecord]]].
  split; [ | split ].
  - apply Hentry. reflexivity.
  - assert (E : Doubles.changes_of Doubles.page_010 Doubles.page_030
                = [ {| Doubles.type := "symbol_density";
                       Doubles.difference := PrimFloat.abs (0.30 - 0.10)%float;
                       Doubles.description :=
                         "Symbol Density changed by 20.0%" |} ])
      by (vm_compute; reflexivity).
    rewrite <- E. apply Hrecord. exists SymbolDensity. reflexivity.
  - vm_compute. reflexivity.
Defined.

(** ** Similarity scorer: equal means, page boundaries *)

(** Two doubles that compare equal, the first of them finite, have the
    difference [0.0] or [-0.0]. *)
Lemma double_abs_sub_equal (a b : float) :
  PrimFloat.is_finite a = true -> PrimFloat.eqb a b = true ->
  PrimFloat.abs (a - b) = 0%float.
Proof.
  unfold PrimFloat.is_finite, PrimFloat.is_nan, PrimFloat.is_infinity.
  rewrite !FloatAxioms.eqb_spec, FloatAxioms.abs_spec.
  intros Hfin Heq. apply FloatAxioms.Prim2SF_inj.
  rewrite FloatAxioms.abs_spec, FloatAxioms.sub_spec.
  change (Prim2SF 0) with (S754_zero false).
  change (Prim2SF infinity) with (S754_infinity false) in Hfin.
  unfold SFeqb in Hfin, Heq.
  destruct (Prim2SF a) as [sa | sa | | sa ma ea];
    destruct (Prim2SF b) as [sb | sb | | sb mb eb];
    cbn in Hfin, Heq; try discriminate;
    try (destruct sa; discriminate); try (destruct sb; discriminate).
  - destruct sa, sb; reflexivity.
  - assert (E : sa = sb /\ ea = eb /\ ma = mb).
    { destruct sa, sb; try discriminate;
        destruct (Z.compare_spec ea eb) as [He | He | He]; try discriminate;
        (split; [reflexivity | split; [exact He | ] ]);
        apply Pos.compare_eq;
        fold (Pos.compare ma mb) in Heq;
        destruct (Pos.compare ma mb); try reflexivity; discriminate. }
    destruct E as [-> [-> ->]].
    unfold SF64sub, SFsub. cbv zeta. rewrite Z.sub_diag. reflexivity.
Qed.

Lemma double_sim_equal_means (a b : float) :
  PrimFloat.is_finite a = true -> PrimFloat.eqb a b = true ->
  (1 - PrimFloat.abs (a - b))%float = 1%float.
Proof.
  intros Hfin Heq. rewrite (double_abs_sub_equal a b Hfin Heq). reflexivity.
Qed.

(** What the scorer returns when both documents have a first page with a
    paragraph. *)
Lemma double_compare_open_guard
    (features1 features2 : Doubles.DocumentFeatureSet) :
  hd [] features1 <> [] -> hd [] features2 <> [] ->
  let sim k := Doubles.dim_sim k (concat features1) (concat features2) in
  Doubles.compare_handwriting_features features1 features2
  = (Doubles.np_clip
       (Doubles.w_confidence * sim Doubles.confidence
        + Doubles.w_symbol_density * sim Doubles.symbol_density
        + Doubles.w_line_breaks * sim Doubles.line_breaks_f
        + Doubles.w_avg_confidence * sim Doubles.average_symbol_confidence)
       0 1,
     [ ("confidence_similarity"%string,
        Doubles.np_clip (sim Doubles.confidence) 0 1);
       ("symbol_density_similarity"%string,
        Doubles.np_clip (sim Doubles.symbol_density) 0 1);
       ("line_break_similarity"%string,
        Doubles.np_clip (sim Doubles.line_breaks_f) 0 1);
       ("average_confidence_similarity"%string,
        Doubles.np_clip (sim Doubles.average_symbol_confidence) 0 1) ])%float.
Proof.
  intros Hp1 Hp2.
  destruct features1 as [ | [ | f1 page1] rest1]; cbn [hd] in Hp1;
    try congruence.
  destruct features2 as [ | [ | f2 page2] rest2]; cbn [hd] in Hp2;
    try congruence.
  reflexivity.
Qed.

(** X6.  Two documents with a written first page each, whose computed means
    are equal and finite on each of the four dimensions, get the composite
    score [1.0] and the four sub-scores [1.0]. *)
Theorem scorer_equal_computed_means_score_one
    (features1 features2 : Doubles.DocumentFeatureSet) :
  hd [] features1 <> [] -> hd [] features2 <> [] ->
  (forall k, In k [Doubles.confidence; Doubles.symbol_density;
                   Doubles.line_breaks_f; Doubles.average_symbol_confidence] ->
     PrimFloat.is_finite (Doubles.np_mean (map k (concat features1))) = true
     /\ PrimFloat.eqb (Doubles.np_mean (map k (concat features1)))
          (Doubles.np_mean (map k (concat features2))) = true) ->
  Doubles.compare_handwriting_features features1 features2
  = (1%float,
     [ ("confidence_similarity"%string, 1%float);
       ("symbol_density_similarity"%string, 1%float);
       ("line_break_similarity"%string, 1%float);
       ("average_confidence_similarity"%string, 1%float) ]).
Proof.
  intros Hp1 Hp2 Hmeans.
  rewrite (double_compare_open_guard _ _ Hp1 Hp2). cbv zeta.
  assert (Hsim : forall k,
            In k [Doubles.confidence; Doubles.symbol_density;
                  Doubles.line_breaks_f; Doubles.average_symbol_confidence] ->
            Doubles.dim_sim k (concat features1) (concat features2) = 1%float).
  { intros k Hk. destruct (Hmeans k Hk) as [Hfin Heq].
    unfold Doubles.dim_sim. now apply double_sim_equal_means. }
  rewrite (Hsim Doubles.confidence) by (simpl; tauto).
  rewrite (Hsim Doubles.symbol_density) by (simpl; tauto).
  rewrite (Hsim Doubles.line_breaks_f) by (simpl; tauto).
  rewrite (Hsim Doubles.average_symbol_confidence) by (simpl; tauto).
  vm_compute. reflexivity.
Qed.

Lemma scorer_equal_computed_means_score_one_witness :
  let a := Doubles.feature 0.1 0.25 2 0.5 in
  let b := Doubles.feature 0.3 0.25 2 0.5 in
  let c := Doubles.feature 0.2 0.25 2 0.5 in
  Doubles.compare_handwriting_features [[a; b]] [[c]; [c]]
  = (1%float,
     [ ("confidence_similarity"%string, 1%float);
       ("symbol_density_similarity"%string, 1%float);
       ("line_break_similarity"%string, 1%float);
       ("average_confidence_similarity"%string, 1%float) ]).
Proof.
  cbv zeta. apply scorer_equal_computed_means_score_one; try discriminate.
  intros k [<- | [<- | [<- | [<- | []]]]]; split; vm_compute; reflexivity.
Defined.

(** X7.  The scorer does not see page boundaries: two feature sets of the
    first document whose pages hold the same paragraphs in the same order,
    each with a written first page, get the same result against any second
    document. *)
Theorem scorer_ignores_page_boundaries
    (features1 features1' features2 : Doubles.DocumentFeatureSet) :
  hd [] features1 <> [] -> hd [] features1' <> [] ->
  concat features1 = concat features1' ->
  Doubles.compare_handwriting_features features1 features2
  = Doubles.compare_handwriting_features features1' features2.
Proof.
  intros Hp1 Hp1' Hflat.
  destruct (Py.is_empty features2 || Py.is_empty (hd [] features2)) eqn:H2.
  - assert (Hdeg : forall f,
               Doubles.compare_handwriting_features f features2 = (0%float, [])).
    { intros f. unfold Doubles.compare_handwriting_features.
      apply orb_true_iff in H2 as [H2 | H2]; rewrite H2;
        rewrite ?orb_true_r; reflexivity. }
    now rewrite !Hdeg.
  - apply orb_false_iff in H2 as [_ Hp2]. apply is_empty_false_iff in Hp2.
    rewrite (double_compare_open_guard _ _ Hp1 Hp2),
            (double_compare_open_guard _ _ Hp1' Hp2).
    cbv zeta. now rewrite Hflat.
Qed.

Lemma scorer_ignores_page_boundaries_witness :
  let a := Doubles.feature 0.9 0.25 2 0.8 in
  let b := Doubles.feature 0.5 0 5 0.5 in
  Doubles.compare_handwriting_features [[a]; [b]] [[b]]
  = Doubles.compare_handwriting_features [[a; b]] [[b]].
Proof.
  cbv zeta. apply scorer_ignores_page_boundaries; try discriminate.
  reflexivity.
Defined.

(** ** The depth of the pairwise sum *)

(** The bound on the number of halvings never decides: every depth from the
    length of the array on gives the same sum. *)
Lemma pairwise_sum_depth (depth depth' : nat) (xs : list float) :
  (List.length xs <= depth)%nat -> (List.length xs <= depth')%nat ->
  Doubles.pairwise_sum depth xs = Doubles.pairwise_sum depth' xs.
Proof.
  revert depth' xs.
  induction depth as [ | depth IH]; intros depth' xs H H'.
  - destruct xs; [ | cbn [List.length] in H; lia ].
    destruct depth'; reflexivity.
  - destruct depth' as [ | depth'].
    + destruct xs; [ | cbn [List.length] in H'; lia ]. reflexivity.
    + cbn [Doubles.pairwise_sum].
      destruct (List.length xs <=? 128)%nat eqn:Hn; [reflexivity | ].
      apply Nat.leb_gt in Hn.
      set (n := List.length xs) in *.
      pose proof (Nat.div_mod_eq n 2) as D2.
      pose proof (Nat.mod_upper_bound n 2 ltac:(lia)) as M2.
      pose proof (Nat.div_mod_eq (n / 2) 8) as D8.
      pose proof (Nat.mod_upper_bound (n / 2) 8 ltac:(lia)) as M8.
      set (n2 := (n / 2 - (n / 2) mod 8)%nat) in *.
      assert (Hlo : (1 <= n2)%nat) by (subst n2; lia).
      assert (Hhi : (n2 < n)%nat) by (subst n2; lia).
      f_equal; apply IH.
      * rewrite length_firstn. fold n. lia.
      * rewrite length_firstn. fold n. lia.
      * rewrite length_skipn. fold n. lia.
      * rewrite length_skipn. fold n. lia.
Qed.
